(** * Resource-lifecycle scripts: manage_db.py and manage_topics.py

    A shallow embedding of the two provisioning scripts under [scripts/]:

    - [manage_db.py]: [get_connection], [up], [down] and the command-line
      dispatch, which talk to a PostgreSQL server through psycopg2;
    - [manage_topics.py]: [create_topics], [delete_topics] and the
      command-line dispatch, which talk to a Kafka cluster through
      kafka-python.

    Python control flow (exceptions, [sys.exit], [try]/[except]/[finally])
    is modelled by a small state-and-outcome monad.  The two external
    systems are modelled by a world record each: the program text only
    decides which calls are issued and how their results are handled, the
    world decides what a call does.  Every call and every log record is
    appended to a trace, so that statements about "which calls were issued"
    are statements about the trace.

    Layout: Part I holds the definitions, Part II the lemmas and theorems
    about the two reconcilers, Part III further properties of the scripts. *)

From Stdlib Require Import ZArith Ascii String.
From stdpp Require Import gmap strings list fin_maps.

Open Scope string_scope.
Open Scope list_scope.

(** * Part I: definitions *)

(** ** Python outcomes *)

Module Py.

(** The exception classes the two scripts can observe.  All of them are
    subclasses of [Exception]; [Error] stands for any other subclass,
    tagged with its class name. *)
Inductive exn : Type :=
| OperationalError           (* psycopg2.OperationalError *)
| DuplicateDatabase          (* psycopg2.errors.DuplicateDatabase *)
| FileNotFoundError
| TopicAlreadyExistsError    (* kafka.errors.TopicAlreadyExistsError *)
| UnknownTopicOrPartitionError
| ValueError
| Error (cls : string).

#[global] Instance exn_eq_dec : EqDecision exn.
Proof. solve_decision. Defined.

(** How a block of Python code ends: it falls through with a value, an
    exception propagates, or [sys.exit(code)] was called.  [SystemExit]
    is not a subclass of [Exception], so no [except] clause of the two
    scripts intercepts it, while [finally] blocks still run. *)
Inductive outcome (A : Type) : Type :=
| Normal (a : A)
| Raised (e : exn)
| SysExit (code : Z).
Arguments Normal {A} a.
Arguments Raised {A} e.
Arguments SysExit {A} code.

(** A computation over a world [W]. *)
Definition M (W A : Type) : Type := W -> outcome A * W.

Section Monad.
Context {W : Type}.

Definition ret {A} (a : A) : M W A := fun w => (Normal a, w).

Definition bind {A B} (m : M W A) (k : A -> M W B) : M W B :=
  fun w =>
    match m w with
    | (Normal a, w') => k a w'
    | (Raised e, w') => (Raised e, w')
    | (SysExit c, w') => (SysExit c, w')
    end.

Definition raise {A} (e : exn) : M W A := fun w => (Raised e, w).

(** [sys.exit(code)] *)
Definition sys_exit {A} (code : Z) : M W A := fun w => (SysExit code, w).

(** [try: body / except ...: handler].  The handler receives the
    exception and returns [None] when no [except] clause matches it,
    in which case the exception keeps propagating. *)
Definition try_except {A} (body : M W A) (handler : exn -> option (M W A))
  : M W A :=
  fun w =>
    match body w with
    | (Raised e, w') =>
        match handler e with
        | Some h => h w'
        | None => (Raised e, w')
        end
    | r => r
    end.

(** [try: body / finally: cleanup].  The cleanup runs on every exit
    path; the outcome is the body's unless the cleanup itself does not
    end normally. *)
Definition try_finally {A} (body : M W A) (cleanup : M W unit) : M W A :=
  fun w =>
    match body w with
    | (r, w') =>
        match cleanup w' with
        | (Normal _, w'') => (r, w'')
        | (Raised e, w'') => (Raised e, w'')
        | (SysExit c, w'') => (SysExit c, w'')
        end
    end.

(** [for x in xs: body x] *)
Fixpoint for_each {A} (xs : list A) (body : A -> M W unit) : M W unit :=
  match xs with
  | [] => ret tt
  | x :: xs' => bind (body x) (fun _ => for_each xs' body)
  end.
End Monad.

(** The exit status of the interpreter when the main module ends with the
    given outcome: 0 when it runs to its end, the argument of [sys.exit],
    and 1 for an uncaught exception. *)
Definition exit_code {A} (r : outcome A) : Z :=
  match r with
  | Normal _ => 0
  | Raised _ => 1
  | SysExit c => c
  end%Z.

(** Severity of a [logging] record. *)
Inductive level : Type := INFO | WARNING | ERROR.

#[global] Instance level_eq_dec : EqDecision level.
Proof. solve_decision. Defined.

End Py.

Export Py.

Declare Scope py_scope.
Delimit Scope py_scope with py.
Notation "x <- m ;; k" := (bind m (fun x => k))
  (at level 100, m at next level, right associativity) : py_scope.
Notation "m ;; k" := (bind m (fun _ => k))
  (at level 100, right associativity) : py_scope.

(** ** Python string methods used by the scripts

    A Python [str] is modelled by [string], that is, as a sequence of code
    points below 256. *)

Module Text.

Definition LF : ascii := "010"%char.
Definition backslash : ascii := "\"%char.
Definition dquote : ascii := "034"%char.

(** [str.isspace] on one character, restricted to code points below 256:
    TAB, LF, VT, FF, CR, the separators FS, GS, RS, US, the space, NEL
    (0x85) and the no-break space (0xA0). *)
Definition isspace (c : ascii) : bool :=
  let n := N_of_ascii c in
  ((9 <=? n) && (n <=? 13) || (28 <=? n) && (n <=? 32)
   || (n =? 133) || (n =? 160))%N.

(** [s.split(sep)] for a one-character separator: the pieces between the
    occurrences of [sep]; never the empty list. *)
Fixpoint split (sep : ascii) (s : string) : list string :=
  match s with
  | EmptyString => [EmptyString]
  | String c s' =>
      if Ascii.eqb c sep then EmptyString :: split sep s'
      else match split sep s' with
           | [] => [String c EmptyString]
           | piece :: rest => String c piece :: rest
           end
  end.

(** [sep.join(pieces)] *)
Definition join (sep : string) (pieces : list string) : string :=
  String.concat sep pieces.

Fixpoint lstrip (s : string) : string :=
  match s with
  | EmptyString => EmptyString
  | String c s' => if isspace c then lstrip s' else s
  end.

Fixpoint rstrip (s : string) : string :=
  match s with
  | EmptyString => EmptyString
  | String c s' =>
      match rstrip s' with
      | EmptyString => if isspace c then EmptyString else String c EmptyString
      | r => String c r
      end
  end.

(** [s.strip()] *)
Definition strip (s : string) : string := rstrip (lstrip s).

(** [s.startswith(p)] *)
Definition startswith (p s : string) : bool := String.prefix p s.

(** The first character of [s] that is not whitespace, if any. *)
Fixpoint first_nonspace (s : string) : option ascii :=
  match s with
  | EmptyString => None
  | String c s' => if isspace c then first_nonspace s' else Some c
  end.

(** Whether the character occurs in the string. *)
Fixpoint contains (c : ascii) (s : string) : bool :=
  match s with
  | EmptyString => false
  | String c' s' => Ascii.eqb c' c || contains c s'
  end.

End Text.

(** ** manage_db.py *)

Module ManageDb.
Import Text.

(** *** psycopg2.sql: composable query fragments *)

Inductive Composable : Type :=
| SQL (text : string)          (* sql.SQL: a literal fragment *)
| Identifier (name : string).  (* sql.Identifier: a schema object name *)

(** [SQL(template).format(args)] for templates whose placeholders are
    all the auto-numbered [{}]: the literal runs of the template
    interleaved with the arguments.  (psycopg2 raises IndexError when the
    arguments run out; the scripts pass one argument for one
    placeholder.) *)
Fixpoint format (template : string) (args : list Composable)
  : list Composable :=
  match template with
  | EmptyString => []
  | String c rest =>
      let literal (tail : list Composable) :=
        match tail with
        | SQL t :: parts => SQL (String c t) :: parts
        | parts => SQL (String c EmptyString) :: parts
        end in
      match rest with
      | String c' rest' =>
          if (Ascii.eqb c "{" && Ascii.eqb c' "}")%bool then
            match args with
            | a :: args' => a :: format rest' args'
            | [] => format rest' []
            end
          else literal (format rest args)
      | EmptyString => literal (format rest args)
      end
  end.

(** What libpq's PQescapeIdentifier does to the characters of a name:
    every double quote is doubled. *)
Fixpoint escape_quotes (s : string) : string :=
  match s with
  | EmptyString => EmptyString
  | String c s' =>
      if Ascii.eqb c dquote then String dquote (String dquote (escape_quotes s'))
      else String c (escape_quotes s')
  end.

(** [Identifier(name).as_string(ctx)]: the escaped name between double
    quotes. *)
Definition quote_ident (name : string) : string :=
  String dquote (escape_quotes name +:+ String dquote EmptyString).

Definition fragment_as_string (c : Composable) : string :=
  match c with
  | SQL text => text
  | Identifier name => quote_ident name
  end.

(** [Composed.as_string(ctx)] *)
Fixpoint as_string (parts : list Composable) : string :=
  match parts with
  | [] => EmptyString
  | c :: parts' => fragment_as_string c +:+ as_string parts'
  end.

(** The argument of [cursor.execute]: a plain [str] or a [Composed]. *)
Inductive query : Type :=
| Str (text : string)
| Composed (parts : list Composable).

(** The text psycopg2 sends to the server. *)
Definition query_text (q : query) : string :=
  match q with
  | Str text => text
  | Composed parts => as_string parts
  end.

(** *** The PostgreSQL server, as far as the script can observe it *)

(** The part of SQL the script leaves to the schema file is a parameter:
    the contents of one database, what a freshly created database
    holds, and the effect of a script on a database, which is either the
    new contents or the class name of the error raised by a statement. *)
Class Engine : Type := {
  schema : Type;
  template : schema;
  run_sql : string -> schema -> schema + string
}.

(** The statements the server tells apart; [Rejected] is a text the
    server refuses to read, with the class of the error. *)
Inductive statement : Type :=
| CreateDatabase (name : string)
| DropDatabaseIfExists (name : string)
| Rejected (cls : string)
| Batch (text : string).

(** The name reaches the server in UTF-8, the encoding of the server: a
    code point below 128 takes one byte there, the others of a [str] as
    modelled here take two. *)
Definition char_bytes (c : ascii) : nat :=
  if (N_of_ascii c <? 128)%N then 1 else 2.

Fixpoint utf8_length (s : string) : nat :=
  match s with
  | EmptyString => 0
  | String c s' => (char_bytes c + utf8_length s')%nat
  end.

(** The longest prefix of whole characters that takes at most [budget]
    bytes. *)
Fixpoint clip (budget : nat) (s : string) : string :=
  match s with
  | EmptyString => EmptyString
  | String c s' =>
      if (char_bytes c <=? budget)%nat
      then String c (clip (budget - char_bytes c)%nat s')
      else EmptyString
  end.

(** The length of a name in the server's catalogs, with its final NUL. *)
Definition NAMEDATALEN : nat := 64.

(** The server cuts an identifier that is too long for a name, between
    two characters. *)
Definition truncate_identifier (name : string) : string :=
  if (utf8_length name <? NAMEDATALEN)%nat then name
  else clip (NAMEDATALEN - 1)%nat name.

(** What the server makes of a name written as a quoted identifier: it
    refuses the empty one and cuts the others to the length of a name. *)
Definition server_reads (name : string) : option string :=
  match name with
  | EmptyString => None
  | _ => Some (truncate_identifier name)
  end.

(** The names the server reads as they are written: not empty and less
    than [NAMEDATALEN] bytes long. *)
Definition valid_name (name : string) : bool :=
  match name with
  | EmptyString => false
  | _ => (utf8_length name <? NAMEDATALEN)%nat
  end.

Fixpoint strip_prefix (p s : string) : option string :=
  match p with
  | EmptyString => Some s
  | String a p' =>
      match s with
      | String b s' => if Ascii.eqb a b then strip_prefix p' s' else None
      | EmptyString => None
      end
  end.

(** The characters between the double quotes of a quoted identifier,
    read after the opening quote: a doubled quote stands for one quote
    character, a single one ends the identifier.  Returns the characters
    and the rest of the input; [None] when the closing quote is missing. *)
Fixpoint scan_literal (s : string) : option (string * string) :=
  match s with
  | EmptyString => None
  | String c s' =>
      if Ascii.eqb c dquote then
        match s' with
        | String c' s'' =>
            if Ascii.eqb c' dquote then
              match scan_literal s'' with
              | Some (literal, rest) => Some (String dquote literal, rest)
              | None => None
              end
            else Some (EmptyString, s')
        | EmptyString => Some (EmptyString, EmptyString)
        end
      else
        match scan_literal s' with
        | Some (literal, rest) => Some (String c literal, rest)
        | None => None
        end
  end.

(** The server's lexer on a double-quoted identifier, after the opening
    quote.  A zero-length identifier is an error ([None] in the first
    component); a longer one is cut to the length of a name.  Returns what
    was read and the rest of the input. *)
Definition scan_quoted (s : string) : option (option string * string) :=
  match scan_literal s with
  | Some (literal, rest) => Some (server_reads literal, rest)
  | None => None
  end.

Definition scan_ident (s : string) : option (option string * string) :=
  match s with
  | String c s' => if Ascii.eqb c dquote then scan_quoted s' else None
  | EmptyString => None
  end.

(** A statement made of the keyword and one quoted identifier, with
    nothing after it: the name as the server reads it, or [Some None] when
    the identifier is refused. *)
Definition parse_named (keyword text : string) : option (option string) :=
  match strip_prefix keyword text with
  | Some rest =>
      match scan_ident rest with
      | Some (read, EmptyString) => Some read
      | _ => None
      end
  | None => None
  end.

(** The server's reading of a statement text.  The two forms the script
    composes are recognised, with the name as the server reads it, and
    refused as a syntax error when the identifier is empty; every other
    text is a batch for the engine. *)
Definition parse (text : string) : statement :=
  match parse_named "CREATE DATABASE " text with
  | Some (Some name) => CreateDatabase name
  | Some None => Rejected "SyntaxError"
  | None =>
      match parse_named "DROP DATABASE IF EXISTS " text with
      | Some (Some name) => DropDatabaseIfExists name
      | Some None => Rejected "SyntaxError"
      | None => Batch text
      end
  end.

(** The keyword arguments of [psycopg2.connect]. *)
Record db_config : Type := {
  cfg_dbname : string;
  cfg_user : string;
  cfg_password : string;
  cfg_host : string;
  cfg_port : Z
}.

(** The records the script logs, by the place that emits them; the text
    of a record is not modelled. *)
Inductive message : Type :=
| CouldNotConnect (dbname : string) (e : exn)   (* get_connection, first record *)
| CheckConnectionDetails                        (* get_connection, second record *)
| EnsuringDatabase (dbname : string)
| DatabaseCreated (dbname : string)
| DatabaseAlreadyExists (dbname : string)       (* "already exists. Skipping creation." *)
| CreateDatabaseFailed (e : exn)
| ApplyingSchema (dbname : string)
| SqlFileNotFound
| SchemaApplied
| SchemaFailed (e : exn)
| DroppingDatabase (dbname : string)
| Executing (text : string)
| DatabaseDropped (dbname : string)
| DownFailed (e : exn).

(** Calls that leave the process, and log records, in program order.
    Connections are named by their handle. *)
Inductive event : Type :=
| Connect (cfg : db_config)
| SetAutocommit (conn : nat) (b : bool)
| Execute (conn : nat) (q : query)
| Commit (conn : nat)
| Rollback (conn : nat)
| Close (conn : nat)
| OpenSqlFile
| Log (lvl : level) (msg : message).

Section Server.
Context {E : Engine}.

(** The transaction of a session: none open, one open with the
    contents as the session sees them, or one that a failed statement
    has aborted. *)
Inductive txn : Type :=
| Idle
| InTxn (working : schema)
| Aborted.

(** A psycopg2 connection object together with its server session. *)
Record session : Type := {
  sess_dbname : string;
  sess_autocommit : bool;
  sess_txn : txn;
  sess_closed : bool
}.

Record world : Type := {
  reachable : bool;        (* the server answers and accepts the credentials *)
  create_fault : option string;
    (* the error class with which the server rejects every CREATE DATABASE,
       if it does: insufficient privilege, disk full, ... *)
  drop_fault : option string;
    (* the error class with which the server rejects the drop of a database
       that exists, if it does: not the owner, other sessions use it, ... *)
  databases : gmap string schema;   (* committed contents, by name *)
  sessions : gmap nat session;
  sql_file : option string;         (* postgres-init.sql, if present *)
  trace : list event
}.

Definition set_databases (d : gmap string schema) (w : world) : world :=
  {| reachable := reachable w; create_fault := create_fault w;
     drop_fault := drop_fault w; databases := d; sessions := sessions w;
     sql_file := sql_file w; trace := trace w |}.

Definition set_sessions (s : gmap nat session) (w : world) : world :=
  {| reachable := reachable w; create_fault := create_fault w;
     drop_fault := drop_fault w; databases := databases w; sessions := s;
     sql_file := sql_file w; trace := trace w |}.

Definition emit (ev : event) : M world unit :=
  fun w =>
    (Normal tt,
     {| reachable := reachable w; create_fault := create_fault w;
        drop_fault := drop_fault w; databases := databases w;
        sessions := sessions w; sql_file := sql_file w;
        trace := trace w ++ [ev] |}).

Definition set_txn (t : txn) (s : session) : session :=
  {| sess_dbname := sess_dbname s; sess_autocommit := sess_autocommit s;
     sess_txn := t; sess_closed := sess_closed s |}.

(** Run [k] on the open connection [conn]; psycopg2 raises
    InterfaceError on a closed connection. *)
Definition with_session {A} (conn : nat) (k : session -> M world A)
  : M world A :=
  fun w =>
    match sessions w !! conn with
    | Some s =>
        if sess_closed s then (Raised (Error "InterfaceError"), w)
        else k s w
    | None => (Raised (Error "InterfaceError"), w)
    end.

(** Whether the server accepts a connection to the database [db]. *)
Definition accepts (db : string) (w : world) : bool :=
  reachable w && bool_decide (is_Some (databases w !! db)).

(** [psycopg2.connect] with the keyword arguments [cfg]: OperationalError
    unless the server accepts the connection; a new connection has
    autocommit off. *)
Definition connect (cfg : db_config) : M world nat :=
  (emit (Connect cfg) ;;
   fun w =>
     if accepts (cfg_dbname cfg) w
     then
       let conn := fresh (dom (sessions w)) in
       (Normal conn,
        set_sessions
          (<[conn := {| sess_dbname := cfg_dbname cfg;
                        sess_autocommit := false;
                        sess_txn := Idle;
                        sess_closed := false |}]> (sessions w)) w)
     else (Raised OperationalError, w))%py.

(** [conn.autocommit = b] *)
Definition set_autocommit (conn : nat) (b : bool) : M world unit :=
  (emit (SetAutocommit conn b) ;;
   with_session conn (fun s w =>
     (Normal tt,
      set_sessions
        (<[conn := {| sess_dbname := sess_dbname s;
                      sess_autocommit := b;
                      sess_txn := sess_txn s;
                      sess_closed := sess_closed s |}]> (sessions w)) w)))%py.

(** CREATE DATABASE outside a transaction block.  The statement is
    checked for permission before the name is looked up. *)
Definition create_database (name : string) : M world unit :=
  fun w =>
    match create_fault w with
    | Some cls => (Raised (Error cls), w)
    | None =>
        match databases w !! name with
        | Some _ => (Raised DuplicateDatabase, w)
        | None =>
            (Normal tt, set_databases (<[name := template]> (databases w)) w)
        end
    end.

(** DROP DATABASE IF EXISTS outside a transaction block, on a session
    connected to [current].  A missing database is not an error (the
    server sends a notice, which the script never reads); the database of
    the session itself cannot be dropped. *)
Definition drop_database_if_exists (current name : string) : M world unit :=
  fun w =>
    match databases w !! name with
    | None => (Normal tt, w)
    | Some _ =>
        if bool_decide (name = current)
        then (Raised (Error "ObjectInUse"), w)
        else match drop_fault w with
             | Some cls => (Raised (Error cls), w)
             | None => (Normal tt, set_databases (delete name (databases w)) w)
             end
    end.

(** A statement on a session with autocommit on: it takes effect at
    once. *)
Definition execute_autocommit (s : session) (st : statement)
  : M world unit :=
  match st with
  | CreateDatabase name => create_database name
  | DropDatabaseIfExists name => drop_database_if_exists (sess_dbname s) name
  | Rejected cls => fun w => (Raised (Error cls), w)
  | Batch text =>
      fun w =>
        match databases w !! sess_dbname s with
        | None => (Raised OperationalError, w)
        | Some contents =>
            match run_sql text contents with
            | inl contents' =>
                (Normal tt,
                 set_databases (<[sess_dbname s := contents']> (databases w)) w)
            | inr cls => (Raised (Error cls), w)
            end
        end
  end.

(** The effect of a statement inside a transaction block on the
    contents the transaction sees.  CREATE DATABASE and DROP DATABASE
    cannot run there. *)
Definition txn_effect (st : statement) (contents : schema)
  : schema + string :=
  match st with
  | CreateDatabase _ | DropDatabaseIfExists _ => inr "ActiveSqlTransaction"
  | Rejected cls => inr cls
  | Batch text => run_sql text contents
  end.

(** A statement on a session with autocommit off: it opens a
    transaction if none is open and works on the transaction's view;
    the committed contents are not touched.  A failure aborts the
    transaction. *)
Definition execute_in_txn (conn : nat) (s : session) (st : statement)
  : M world unit :=
  fun w =>
    let view :=
      match sess_txn s with
      | Idle => match databases w !! sess_dbname s with
                | Some contents => inl contents
                | None => inr "OperationalError"
                end
      | InTxn working => inl working
      | Aborted => inr "InFailedSqlTransaction"
      end in
    match view with
    | inr cls => (Raised (Error cls), w)
    | inl contents =>
        match txn_effect st contents with
        | inl contents' =>
            (Normal tt,
             set_sessions (<[conn := set_txn (InTxn contents') s]> (sessions w)) w)
        | inr cls =>
            (Raised (Error cls),
             set_sessions (<[conn := set_txn Aborted s]> (sessions w)) w)
        end
    end.

(** [with conn.cursor() as cur: cur.execute(q)] *)
Definition execute (conn : nat) (q : query) : M world unit :=
  (emit (Execute conn q) ;;
   with_session conn (fun s =>
     if sess_autocommit s then execute_autocommit s (parse (query_text q))
     else execute_in_txn conn s (parse (query_text q))))%py.

(** [conn.commit()]: the transaction's view becomes the committed
    contents; committing an aborted transaction rolls it back. *)
Definition commit (conn : nat) : M world unit :=
  (emit (Commit conn) ;;
   with_session conn (fun s w =>
     let w' := set_sessions (<[conn := set_txn Idle s]> (sessions w)) w in
     match sess_txn s with
     | InTxn working =>
         (Normal tt,
          set_databases (<[sess_dbname s := working]> (databases w')) w')
     | _ => (Normal tt, w')
     end))%py.

(** [conn.rollback()]: the transaction's view is discarded. *)
Definition rollback (conn : nat) : M world unit :=
  (emit (Rollback conn) ;;
   with_session conn (fun s w =>
     (Normal tt, set_sessions (<[conn := set_txn Idle s]> (sessions w)) w)))%py.

(** [conn.close()]: an open transaction is discarded with the
    connection; closing twice is allowed. *)
Definition close (conn : nat) : M world unit :=
  (emit (Close conn) ;;
   fun w =>
     match sessions w !! conn with
     | Some s =>
         (Normal tt,
          set_sessions
            (<[conn := {| sess_dbname := sess_dbname s;
                          sess_autocommit := sess_autocommit s;
                          sess_txn := Idle;
                          sess_closed := true |}]> (sessions w)) w)
     | None => (Normal tt, w)
     end)%py.

(** [with open(SQL_FILE, "r") as f: f.read()] *)
Definition read_sql_file : M world string :=
  (emit OpenSqlFile ;;
   fun w =>
     match sql_file w with
     | Some text => (Normal text, w)
     | None => (Raised FileNotFoundError, w)
     end)%py.

Definition log (lvl : level) (msg : message) : M world unit :=
  emit (Log lvl msg).

(** *** The script *)

(** The namespace argparse produces. *)
Record Args : Type := {
  action : string;      (* --action, "up" or "down" *)
  host : string;
  port : Z;
  user : string;
  password : string;
  dbname : string
}.

(** Truth value of an optional [str] argument: [None] and the empty string
    are false. *)
Definition truthy (o : option string) : bool :=
  match o with
  | Some EmptyString | None => false
  | Some _ => true
  end.

Definition get_connection (args : Args) (db_override : option string)
  : M world nat :=
  let db_config :=
    {| cfg_dbname := if truthy db_override
                     then default EmptyString db_override
                     else dbname args;
       cfg_user := user args;
       cfg_password := password args;
       cfg_host := host args;
       cfg_port := port args |} in
  try_except
    (connect db_config)
    (fun e =>
       match e with
       | OperationalError =>
           Some (log ERROR (CouldNotConnect (cfg_dbname db_config) e) ;;
                 log ERROR CheckConnectionDetails ;;
                 sys_exit 1)%py
       | _ => None
       end).

(** The query of [up]: [sql.SQL("CREATE DATABASE {}").format(sql.Identifier(name))] *)
Definition create_database_query (name : string) : query :=
  Composed (format "CREATE DATABASE {}" [Identifier name]).

(** The query of [down]. *)
Definition drop_database_query (name : string) : query :=
  Composed (format "DROP DATABASE IF EXISTS {}" [Identifier name]).

(** The comprehension of [up] that removes the psql meta-commands:
    the lines of the script, without those that start with a backslash
    once stripped, joined again. *)
Definition is_meta_command (line : string) : bool :=
  startswith (String backslash EmptyString) (strip line).

(** Following the specification's wording of the same filter: a line is
    dropped when its first non-whitespace character is the escape marker. *)
Definition starts_with_escape_marker (line : string) : bool :=
  match first_nonspace line with
  | Some c => Ascii.eqb c backslash
  | None => false
  end.

Definition clean_sql (sql_script : string) : string :=
  join (String LF EmptyString)
       (List.filter (fun line => negb (is_meta_command line))
                    (split LF sql_script)).

(** Step 1 of [up]: connect to the default database and create the
    target database. *)
Definition up_ensure_database (args : Args) : M world unit :=
  (log INFO (EnsuringDatabase (dbname args)) ;;
   conn_admin <- get_connection args (Some "postgres") ;;
   set_autocommit conn_admin true ;;
   try_finally
     (try_except
        (execute conn_admin (create_database_query (dbname args)) ;;
         log INFO (DatabaseCreated (dbname args)))
        (fun e =>
           match e with
           | DuplicateDatabase =>
               Some (log INFO (DatabaseAlreadyExists (dbname args)))
           | _ =>
               Some (log ERROR (CreateDatabaseFailed e) ;; sys_exit 1)
           end))
     (close conn_admin))%py.

(** The rest of [up]: read the SQL file, clean it and run it on the
    target database in one transaction. *)
Definition up_apply_schema (args : Args) : M world unit :=
  (log INFO (ApplyingSchema (dbname args)) ;;
   sql_script <-
     try_except read_sql_file
       (fun e =>
          match e with
          | FileNotFoundError => Some (log ERROR SqlFileNotFound ;; sys_exit 1)
          | _ => None
          end) ;;
   let cleaned_sql := clean_sql sql_script in
   conn_target <- get_connection args None ;;
   set_autocommit conn_target false ;;
   try_finally
     (try_except
        (execute conn_target (Str cleaned_sql) ;;
         commit conn_target ;;
         log INFO SchemaApplied)
        (fun e =>
           Some (rollback conn_target ;;
                 log ERROR (SchemaFailed e) ;;
                 sys_exit 1)))
     (close conn_target))%py.

Definition up (args : Args) : M world unit :=
  (up_ensure_database args ;; up_apply_schema args)%py.

Definition down (args : Args) : M world unit :=
  (log INFO (DroppingDatabase (dbname args)) ;;
   conn_admin <- get_connection args (Some "postgres") ;;
   set_autocommit conn_admin true ;;
   try_finally
     (try_except
        (let command := drop_database_query (dbname args) in
         log INFO (Executing (query_text command)) ;;
         execute conn_admin command ;;
         log INFO (DatabaseDropped (dbname args)))
        (fun e => Some (log ERROR (DownFailed e) ;; sys_exit 1)))
     (close conn_admin))%py.

(** The main module, after argparse. *)
Definition main (args : Args) : M world unit :=
  if String.eqb (action args) "up" then up args else down args.

(** *** Observations on a run *)

(** The events a computation adds to the trace of [w]. *)
Definition events {A} (m : M world A) (w : world) : list event :=
  drop (length (trace w)) (trace (snd (m w))).

(** The statements sent to the server, in order. *)
Definition executed (evs : list event) : list query :=
  omap (fun ev => match ev with Execute _ q => Some q | _ => None end) evs.

(** The databases connected to, in order. *)
Definition connected (evs : list event) : list string :=
  omap (fun ev => match ev with Connect cfg => Some (cfg_dbname cfg) | _ => None end) evs.

Definition commits (evs : list event) : nat :=
  length (List.filter (fun ev => match ev with Commit _ => true | _ => false end) evs).

Definition rollbacks (evs : list event) : nat :=
  length (List.filter (fun ev => match ev with Rollback _ => true | _ => false end) evs).

(** Whether the record that closes a successful [up] or [down] was
    logged. *)
Definition completed (evs : list event) : bool :=
  existsb (fun ev => match ev with
                     | Log INFO SchemaApplied | Log INFO (DatabaseDropped _) => true
                     | _ => false
                     end) evs.

(** The world [w] after a run that added [evs] to the trace and left the
    databases [dbs] and the sessions [ss]. *)
Definition after (evs : list event) (dbs : gmap string schema)
  (ss : gmap nat session) (w : world) : world :=
  {| reachable := reachable w; create_fault := create_fault w;
     drop_fault := drop_fault w; databases := dbs; sessions := ss;
     sql_file := sql_file w; trace := trace w ++ evs |}.

(** The keyword arguments of the two connections of a run. *)
Definition admin_config (args : Args) : db_config :=
  {| cfg_dbname := "postgres"; cfg_user := user args;
     cfg_password := password args; cfg_host := host args;
     cfg_port := port args |}.

Definition target_config (args : Args) : db_config :=
  {| cfg_dbname := dbname args; cfg_user := user args;
     cfg_password := password args; cfg_host := host args;
     cfg_port := port args |}.

(** A connection after [close]. *)
Definition closed_session (db : string) (auto : bool) : session :=
  {| sess_dbname := db; sess_autocommit := auto; sess_txn := Idle;
     sess_closed := true |}.

(** The databases as the first step of [up] leaves them. *)
Definition ensured (name : string) (dbs : gmap string schema)
  : gmap string schema :=
  match dbs !! name with
  | Some _ => dbs
  | None => <[name := template]> dbs
  end.

(** The log records of a given severity. *)
Definition logged (lvl : level) (evs : list event) : list message :=
  omap (fun ev => match ev with
                  | Log l msg => if bool_decide (l = lvl) then Some msg else None
                  | _ => None
                  end) evs.

(** The sessions [later] with respect to the sessions [earlier] of the
    same server: every session is one of the earlier ones, untouched, or
    is closed with no transaction open. *)
Definition settled (earlier later : gmap nat session) : Prop :=
  forall conn s,
    later !! conn = Some s ->
    earlier !! conn = Some s \/ (sess_closed s = true /\ sess_txn s = Idle).

(** How often the SQL file was opened. *)
Definition file_reads (evs : list event) : nat :=
  length (List.filter (fun ev => match ev with OpenSqlFile => true | _ => false end) evs).

End Server.
End ManageDb.


(** ** manage_topics.py *)

Module ManageTopics.

(** kafka.admin.NewTopic *)
Record NewTopic : Type := {
  name : string;
  num_partitions : Z;
  replication_factor : Z
}.

(** The records the script logs, by the place that emits them. *)
Inductive message : Type :=
| TopicAlreadyExists (topic : string)      (* create_topics, in the loop *)
| NoNewTopics                              (* "No new topics to create." *)
| TopicCreated (topic : string)
| TopicsAlreadyExist (e : exn)             (* create_topics, first handler *)
| CreateTopicsFailed (e : exn)             (* create_topics, second handler *)
| DeletionRequestSent (topic : string)
| TopicsDoNotExist (e : exn)               (* delete_topics, first handler *)
| DeleteTopicsFailed (e : exn)             (* delete_topics, second handler *)
| AnErrorOccurred (e : exn).               (* main module *)

(** Calls to kafka-python and log records, in program order. *)
Inductive event : Type :=
| NewAdminClient (bootstrap_servers : list string) (username password : string)
| ListTopics
| CreateTopics (new_topics : list NewTopic) (validate_only : bool)
| DeleteTopics (topics : list string)
| CloseClient
| Log (lvl : level) (msg : message).

(** The Kafka cluster as far as the script can observe it, and the
    module-level variable [admin_client] of the script. *)
Record world : Type := {
  reachable : bool;      (* a broker answers and accepts the credentials *)
  authorized : bool;     (* the principal may create and delete topics *)
  listing_fault : option string;
                         (* the error of a metadata request, if it fails *)
  topics : gset string;  (* the names of the existing topics *)
  admin_client : bool;   (* whether the variable holds a client *)
  trace : list event
}.

Definition emit (ev : event) : M world unit :=
  fun w =>
    (Normal tt,
     {| reachable := reachable w; authorized := authorized w;
        listing_fault := listing_fault w;
        topics := topics w; admin_client := admin_client w;
        trace := trace w ++ [ev] |}).

Definition set_topics (t : gset string) (w : world) : world :=
  {| reachable := reachable w; authorized := authorized w;
     listing_fault := listing_fault w;
     topics := t; admin_client := admin_client w; trace := trace w |}.

Definition set_admin_client (b : bool) (w : world) : world :=
  {| reachable := reachable w; authorized := authorized w;
     listing_fault := listing_fault w;
     topics := topics w; admin_client := b; trace := trace w |}.

Definition log (lvl : level) (msg : message) : M world unit :=
  emit (Log lvl msg).

(** [KafkaAdminClient(...)]: raises when no broker can be reached with
    the credentials. *)
Definition KafkaAdminClient (bootstrap_servers : list string)
  (username pwd : string) : M world unit :=
  (emit (NewAdminClient bootstrap_servers username pwd) ;;
   fun w =>
     if reachable w then (Normal tt, w)
     else (Raised (Error "NoBrokersAvailable"), w))%py.

(** [admin_client.list_topics()]: the names of the topics of the cluster;
    raises when the metadata request fails. *)
Definition list_topics : M world (list string) :=
  (emit ListTopics ;;
   fun w =>
     match listing_fault w with
     | Some cls => (Raised (Error cls), w)
     | None => (Normal (elements (topics w)), w)
     end)%py.

(** [admin_client.create_topics(new_topics=..., validate_only=...)]: the
    cluster creates the topics of the request that do not exist; the
    client raises the error of a topic that could not be created.  A
    validate-only request creates nothing. *)
Definition client_create_topics (new_topics : list NewTopic)
  (validate_only : bool) : M world unit :=
  (emit (CreateTopics new_topics validate_only) ;;
   fun w =>
     if negb (authorized w)
     then (Raised (Error "TopicAuthorizationFailedError"), w)
     else
       let requested := name <$> new_topics in
       let w' := if validate_only then w
                 else set_topics (topics w ∪ list_to_set requested) w in
       if bool_decide (Exists (fun n => n ∈ topics w) requested)
       then (Raised TopicAlreadyExistsError, w')
       else (Normal tt, w'))%py.

(** [admin_client.delete_topics(topics=...)]: the cluster removes the
    topics of the request that exist; the client raises the error of a
    topic that did not. *)
Definition client_delete_topics (names : list string) : M world unit :=
  (emit (DeleteTopics names) ;;
   fun w =>
     if negb (authorized w)
     then (Raised (Error "TopicAuthorizationFailedError"), w)
     else
       let w' := set_topics (topics w ∖ list_to_set names) w in
       if bool_decide (Exists (fun n => n ∉ topics w) names)
       then (Raised UnknownTopicOrPartitionError, w')
       else (Normal tt, w'))%py.

(** [admin_client.close()] *)
Definition client_close : M world unit := emit CloseClient.

(** *** The script

    The cluster is the world of the computation, so the [admin_client]
    argument of the two functions is left implicit. *)

(** The loop of [create_topics] that fills [topics_to_create]. *)
Fixpoint create_topics_loop (existing_topics : list string)
  (num_partitions replication_factor : Z)
  (topic_names : list string) (topics_to_create : list NewTopic)
  : M world (list NewTopic) :=
  match topic_names with
  | [] => ret topics_to_create
  | name :: rest =>
      if bool_decide (name ∈ existing_topics) then
        (log WARNING (TopicAlreadyExists name) ;;
         create_topics_loop existing_topics num_partitions replication_factor
           rest topics_to_create)%py
      else
        create_topics_loop existing_topics num_partitions replication_factor
          rest
          (topics_to_create ++
             [{| name := name; num_partitions := num_partitions;
                 replication_factor := replication_factor |}])
  end.

Definition create_topics (topic_names : list string)
  (num_partitions replication_factor : Z) : M world unit :=
  (existing_topics <- list_topics ;;
   topics_to_create <-
     create_topics_loop existing_topics num_partitions replication_factor
       topic_names [] ;;
   match topics_to_create with
   | [] => log INFO NoNewTopics
   | _ =>
       try_except
         (client_create_topics topics_to_create false ;;
          for_each topics_to_create (fun topic => log INFO (TopicCreated (name topic))))
         (fun e =>
            match e with
            | TopicAlreadyExistsError => Some (log WARNING (TopicsAlreadyExist e))
            | _ => Some (log ERROR (CreateTopicsFailed e))
            end)
   end)%py.

Definition delete_topics (topic_names : list string) : M world unit :=
  try_except
    (client_delete_topics topic_names ;;
     for_each topic_names (fun topic => log INFO (DeletionRequestSent topic)))%py
    (fun e =>
       match e with
       | UnknownTopicOrPartitionError => Some (log WARNING (TopicsDoNotExist e))
       | _ => Some (log ERROR (DeleteTopicsFailed e))
       end).

(** The environment variables the module reads when it is loaded. *)
Record Env : Type := {
  KAFKA_BOOTSTRAP_SERVERS : option string;
  KAFKA_USER : option string;
  KAFKA_PASSWORD : option string
}.

Definition truthy (o : option string) : bool :=
  match o with
  | Some EmptyString | None => false
  | Some _ => true
  end.

(** The list of topics of the main module. *)
Definition topics_of_main : list string :=
  [ "websocket_fanout"; "processing_fanout"; "ecommerce_events";
    "ecommerce_processing_fanout"; "product-updates"; "recommendations";
    "inventory_updates"; "inventory-events"; "shopping-cart-events";
    "basket-patterns"; "order-events"; "product-recommendations" ].

(** The main module, after argparse; [action] is "create" or "delete". *)
Definition main (env : Env) (action : string) : M world unit :=
  if negb (forallb truthy [KAFKA_BOOTSTRAP_SERVERS env; KAFKA_USER env;
                           KAFKA_PASSWORD env])
  then raise ValueError
  else
    ((fun w => (Normal tt, set_admin_client false w)) ;;
     try_finally
       (try_except
          (KafkaAdminClient
             (Text.split ","%char (default EmptyString (KAFKA_BOOTSTRAP_SERVERS env)))
             (default EmptyString (KAFKA_USER env))
             (default EmptyString (KAFKA_PASSWORD env)) ;;
           (fun w => (Normal tt, set_admin_client true w)) ;;
           if String.eqb action "create"
           then create_topics topics_of_main 1 1
           else delete_topics topics_of_main)
          (fun e => Some (log ERROR (AnErrorOccurred e))))
       (fun w => if admin_client w then client_close w else (Normal tt, w)))%py.

(** *** Observations on a run *)

Definition events {A} (m : M world A) (w : world) : list event :=
  drop (length (trace w)) (trace (snd (m w))).

(** The topic names of the create requests sent, in order. *)
Definition create_requests (evs : list event) : list (list string) :=
  omap (fun ev => match ev with
                  | CreateTopics new_topics _ => Some (name <$> new_topics)
                  | _ => None
                  end) evs.

(** The names of [topic_names] that are not among [existing], in order. *)
Definition missing (existing topic_names : list string) : list string :=
  List.filter (fun n => negb (bool_decide (n ∈ existing))) topic_names.

(** The world [w] after a run that added [evs] to the trace. *)
Definition add_events (evs : list event) (w : world) : world :=
  {| reachable := reachable w; authorized := authorized w;
     listing_fault := listing_fault w;
     topics := topics w; admin_client := admin_client w;
     trace := trace w ++ evs |}.

Definition delete_requests (evs : list event) : list (list string) :=
  omap (fun ev => match ev with DeleteTopics names => Some names | _ => None end) evs.

Definition logged (lvl : level) (evs : list event) : list message :=
  omap (fun ev => match ev with
                  | Log l msg => if bool_decide (l = lvl) then Some msg else None
                  | _ => None
                  end) evs.

(** The clients created, by their bootstrap servers. *)
Definition clients (evs : list event) : list (list string) :=
  omap (fun ev => match ev with
                  | NewAdminClient servers _ _ => Some servers
                  | _ => None
                  end) evs.

(** How often a client was closed. *)
Definition client_closes (evs : list event) : nat :=
  length (omap (fun ev => match ev with CloseClient => Some tt | _ => None end) evs).

(** Whether the three configuration variables are set and not empty. *)
Definition configured (env : Env) : bool :=
  forallb truthy [KAFKA_BOOTSTRAP_SERVERS env; KAFKA_USER env; KAFKA_PASSWORD env].

End ManageTopics.


(** ** Sample inputs *)

Module Sample.

(** An engine whose databases hold the scripts applied to them, in order;
    a script that begins with FAIL raises a syntax error. *)
Definition journal : ManageDb.Engine :=
  {| ManageDb.schema := list string;
     ManageDb.template := [];
     ManageDb.run_sql := fun text contents =>
       if String.prefix "FAIL" text then inr "SyntaxError"
       else inl (contents ++ [text]) |}.

Definition args : ManageDb.Args :=
  {| ManageDb.action := "up"; ManageDb.host := "localhost";
     ManageDb.port := 5432; ManageDb.user := "admin";
     ManageDb.password := "secret"; ManageDb.dbname := "ecommerce" |}.

(** A schema file with one psql meta-command and one statement. *)
Definition script : string :=
  String.concat (String Text.LF EmptyString)
    ["\c ecommerce"; "INSERT INTO products VALUES (1);"].

Definition failing_script : string :=
  String.concat (String Text.LF EmptyString)
    ["\c ecommerce"; "FAIL INTO products;"].

(** A reachable server that only has the default database. *)
Definition server (file : option string) : @ManageDb.world journal :=
  {| ManageDb.reachable := true; ManageDb.create_fault := None;
     ManageDb.drop_fault := None;
     ManageDb.databases := {[ "postgres" := [] ]};
     ManageDb.sessions := ∅; ManageDb.sql_file := file;
     ManageDb.trace := [] |}.

(** The same server when the target database is already there. *)
Definition server_with_target : @ManageDb.world journal :=
  {| ManageDb.reachable := true; ManageDb.create_fault := None;
     ManageDb.drop_fault := None;
     ManageDb.databases := {[ "postgres" := []; "ecommerce" := [] ]};
     ManageDb.sessions := ∅; ManageDb.sql_file := Some script;
     ManageDb.trace := [] |}.

(** A server that does not answer. *)
Definition server_down : @ManageDb.world journal :=
  {| ManageDb.reachable := false; ManageDb.create_fault := None;
     ManageDb.drop_fault := None;
     ManageDb.databases := {[ "postgres" := [] ]};
     ManageDb.sessions := ∅; ManageDb.sql_file := Some script;
     ManageDb.trace := [] |}.

Definition env : ManageTopics.Env :=
  {| ManageTopics.KAFKA_BOOTSTRAP_SERVERS := Some "broker-1:9092,broker-2:9092";
     ManageTopics.KAFKA_USER := Some "admin";
     ManageTopics.KAFKA_PASSWORD := Some "secret" |}.

(** A cluster on which the topic orders exists. *)
Definition cluster : ManageTopics.world :=
  {| ManageTopics.reachable := true; ManageTopics.authorized := true;
     ManageTopics.listing_fault := None;
     ManageTopics.topics := {[ "orders" ]};
     ManageTopics.admin_client := false; ManageTopics.trace := [] |}.

(** A cluster that does not answer. *)
Definition cluster_down : ManageTopics.world :=
  {| ManageTopics.reachable := false; ManageTopics.authorized := true;
     ManageTopics.listing_fault := None;
     ManageTopics.topics := ∅;
     ManageTopics.admin_client := false; ManageTopics.trace := [] |}.

(** A cluster whose metadata requests time out. *)
Definition cluster_stalled : ManageTopics.world :=
  {| ManageTopics.reachable := true; ManageTopics.authorized := true;
     ManageTopics.listing_fault := Some "KafkaTimeoutError";
     ManageTopics.topics := {[ "orders" ]};
     ManageTopics.admin_client := false; ManageTopics.trace := [] |}.

(** The arguments of a run against the default database itself. *)
Definition args_postgres : ManageDb.Args :=
  {| ManageDb.action := "down"; ManageDb.host := "localhost";
     ManageDb.port := 5432; ManageDb.user := "admin";
     ManageDb.password := "secret"; ManageDb.dbname := "postgres" |}.

(** The arguments of a run of [down] with an empty database name. *)
Definition args_empty : ManageDb.Args :=
  {| ManageDb.action := "down"; ManageDb.host := "localhost";
     ManageDb.port := 5432; ManageDb.user := "admin";
     ManageDb.password := "secret"; ManageDb.dbname := EmptyString |}.

(** A name of 63 bytes, and one of 70 bytes that begins with it. *)
Definition name63 : string :=
  "aaaaaaaaaaaaaaaaaaaaaaaaaaaaaaaaaaaaaaaaaaaaaaaaaaaaaaaaaaaaaaa".

Definition name70 : string := name63 +:+ "aaaaaaa".

Definition args_long : ManageDb.Args :=
  {| ManageDb.action := "down"; ManageDb.host := "localhost";
     ManageDb.port := 5432; ManageDb.user := "admin";
     ManageDb.password := "secret"; ManageDb.dbname := name70 |}.

(** A server that has a database of the 63-byte name. *)
Definition server_with_name63 : @ManageDb.world journal :=
  {| ManageDb.reachable := true; ManageDb.create_fault := None;
     ManageDb.drop_fault := None;
     ManageDb.databases := {[ "postgres" := []; name63 := [] ]};
     ManageDb.sessions := ∅; ManageDb.sql_file := Some script;
     ManageDb.trace := [] |}.

(** A schema file without a psql meta-command; its second line is
    indented and its last line is empty. *)
Definition plain_script : string :=
  String.concat (String Text.LF EmptyString)
    ["CREATE TABLE products (id int);"; "  INSERT INTO products VALUES (1);"; ""].

End Sample.

(** * Part II: lemmas and theorems *)

(** ** Facts about the string methods *)

Section TextFacts.
Import Text.

Lemma rstrip_head (c : ascii) (s : string) :
  isspace c = false -> rstrip (String c s) = String c (rstrip s).
Proof.
  intros Hc. simpl. rewrite Hc. destruct (rstrip s); reflexivity.
Qed.

Lemma prefix_one_char (c d : ascii) (s : string) :
  String.prefix (String c EmptyString) (String d s) = Ascii.eqb d c.
Proof.
  simpl. destruct (ascii_dec c d) as [->|Hne].
  - rewrite Ascii.eqb_refl. now destruct s.
  - symmetry. apply Ascii.eqb_neq. congruence.
Qed.

Lemma startswith_strip (c : ascii) (line : string) :
  startswith (String c EmptyString) (strip line)
  = match first_nonspace line with
    | Some d => Ascii.eqb d c
    | None => false
    end.
Proof.
  unfold startswith, strip.
  induction line as [|d line IH]; [reflexivity|].
  cbn [lstrip first_nonspace]. destruct (isspace d) eqn:Hd; [exact IH|].
  rewrite (rstrip_head _ _ Hd). apply prefix_one_char.
Qed.

Lemma split_cons_inv (sep : ascii) (s : string) :
  exists piece rest, split sep s = piece :: rest.
Proof.
  induction s as [|c s [piece [rest IH]]]; simpl; [eauto|].
  destruct (Ascii.eqb c sep); [eauto|]. rewrite IH. eauto.
Qed.

Lemma split_pieces_free (sep : ascii) (s : string) :
  Forall (fun piece => contains sep piece = false) (split sep s).
Proof.
  induction s as [|c s IH]; simpl.
  - repeat constructor.
  - destruct (Ascii.eqb c sep) eqn:Hc.
    + constructor; [reflexivity | exact IH].
    + destruct (split sep s) as [|piece rest]; [repeat constructor; simpl; now rewrite Hc|].
      inversion IH as [|? ? Hp Hr]; subst. constructor; [|exact Hr].
      simpl. now rewrite Hc, Hp.
Qed.

Lemma split_free (sep : ascii) (s : string) :
  contains sep s = false -> split sep s = [s].
Proof.
  induction s as [|c s IH]; simpl; [reflexivity|].
  intros H. apply orb_false_elim in H as [Hc Hs].
  rewrite Hc, (IH Hs). reflexivity.
Qed.

Lemma split_app_sep (sep : ascii) (piece s : string) :
  contains sep piece = false ->
  split sep (piece +:+ String sep s) = piece :: split sep s.
Proof.
  induction piece as [|c piece IH]; simpl.
  - intros _. now rewrite Ascii.eqb_refl.
  - intros H. apply orb_false_elim in H as [Hc Hs].
    rewrite Hc, (IH Hs). reflexivity.
Qed.

Lemma split_join (sep : ascii) (pieces : list string) :
  Forall (fun piece => contains sep piece = false) pieces ->
  split sep (join (String sep EmptyString) pieces)
  = match pieces with [] => [EmptyString] | _ => pieces end.
Proof.
  unfold join. induction 1 as [|piece rest Hp Hr IH]; [reflexivity|].
  destruct rest as [|piece' rest].
  - simpl. now apply split_free.
  - change (String.concat (String sep "") (piece :: piece' :: rest))
      with (piece +:+ String sep (String.concat (String sep "") (piece' :: rest))).
    rewrite (split_app_sep _ _ _ Hp), IH. reflexivity.
Qed.

Lemma Forall_filter_bool {A} (P : A -> Prop) (f : A -> bool) (l : list A) :
  Forall P l -> Forall P (List.filter f l).
Proof.
  induction 1 as [|x l Hx Hl IH]; simpl; [constructor|].
  destruct (f x); [constructor|]; assumption.
Qed.

End TextFacts.

(** ** Facts about the composed queries and the server's reading of them *)

Section SqlFacts.
Import Text ManageDb.

Lemma append_cons (c : ascii) (s t : string) :
  String c s +:+ t = String c (s +:+ t).
Proof. reflexivity. Qed.

Lemma append_empty_r (s : string) : s +:+ EmptyString = s.
Proof.
  induction s as [|c s IH]; [reflexivity|].
  now rewrite append_cons, IH.
Qed.

Lemma strip_prefix_append (p s : string) : strip_prefix p (p +:+ s) = Some s.
Proof.
  induction p as [|c p IH]; [reflexivity|].
  rewrite append_cons. cbn [strip_prefix]. now rewrite Ascii.eqb_refl.
Qed.

(** The lexer reads back exactly the escaped name, provided the text after
    the closing quote does not begin with another quote. *)
Lemma scan_literal_escape (name rest : string) :
  startswith (String dquote EmptyString) rest = false ->
  scan_literal (escape_quotes name +:+ String dquote rest) = Some (name, rest).
Proof.
  intros Hrest. induction name as [|c name IH].
  - simpl. destruct rest as [|d rest]; [reflexivity|].
    unfold startswith in Hrest. rewrite prefix_one_char in Hrest.
    now rewrite Hrest.
  - cbn [escape_quotes]. destruct (Ascii.eqb c dquote) eqn:Hc.
    + apply Ascii.eqb_eq in Hc. subst c.
      change (scan_literal (String dquote (String dquote (escape_quotes name +:+ String dquote rest)))
              = Some (String dquote name, rest)).
      cbn [scan_literal]. rewrite !Ascii.eqb_refl, IH. reflexivity.
    + change (scan_literal (String c (escape_quotes name +:+ String dquote rest))
              = Some (String c name, rest)).
      cbn [scan_literal]. rewrite Hc, IH. reflexivity.
Qed.

Lemma scan_literal_quote_ident (name : string) :
  scan_literal (escape_quotes name +:+ String dquote EmptyString)
  = Some (name, EmptyString).
Proof. now apply scan_literal_escape. Qed.

Lemma scan_ident_quote_ident (name : string) :
  scan_ident (quote_ident name) = Some (server_reads name, EmptyString).
Proof.
  unfold quote_ident, scan_ident, scan_quoted. rewrite Ascii.eqb_refl.
  now rewrite scan_literal_quote_ident.
Qed.

Lemma parse_named_quote_ident (keyword name : string) :
  parse_named keyword (keyword +:+ quote_ident name) = Some (server_reads name).
Proof.
  unfold parse_named.
  now rewrite strip_prefix_append, scan_ident_quote_ident.
Qed.

Lemma create_database_query_text (name : string) :
  query_text (create_database_query name) = "CREATE DATABASE " +:+ quote_ident name.
Proof.
  unfold create_database_query, query_text.
  change (format "CREATE DATABASE {}" [Identifier name])
    with [SQL "CREATE DATABASE "; Identifier name].
  cbn [as_string fragment_as_string]. now rewrite append_empty_r.
Qed.

Lemma drop_database_query_text (name : string) :
  query_text (drop_database_query name)
  = "DROP DATABASE IF EXISTS " +:+ quote_ident name.
Proof.
  unfold drop_database_query, query_text.
  change (format "DROP DATABASE IF EXISTS {}" [Identifier name])
    with [SQL "DROP DATABASE IF EXISTS "; Identifier name].
  cbn [as_string fragment_as_string]. now rewrite append_empty_r.
Qed.

(** The server's reading of the two statements the script composes. *)
Lemma parse_create_database_query (name : string) :
  parse (query_text (create_database_query name))
  = match server_reads name with
    | Some stored => CreateDatabase stored
    | None => Rejected "SyntaxError"
    end.
Proof.
  rewrite create_database_query_text. unfold parse.
  now rewrite parse_named_quote_ident.
Qed.

Lemma parse_drop_database_query (name : string) :
  parse (query_text (drop_database_query name))
  = match server_reads name with
    | Some stored => DropDatabaseIfExists stored
    | None => Rejected "SyntaxError"
    end.
Proof.
  rewrite drop_database_query_text. unfold parse.
  rewrite parse_named_quote_ident.
  reflexivity.
Qed.

(** A name that is not empty and short enough is read as it is written. *)
Lemma server_reads_valid (name : string) :
  valid_name name = true -> server_reads name = Some name.
Proof.
  unfold valid_name, server_reads, truncate_identifier.
  destruct name as [|c name]; [discriminate|].
  now intros ->.
Qed.

Lemma valid_name_not_empty (name : string) :
  valid_name name = true -> name <> EmptyString.
Proof. now destruct name. Qed.

(** The server refuses exactly the empty name. *)
Lemma server_reads_None (name : string) :
  server_reads name = None <-> name = EmptyString.
Proof. destruct name; cbn; split; congruence. Qed.

End SqlFacts.

(** ** Runs of manage_db.py, case by case *)

Section DbRuns.
Import Text ManageDb.
Context {E : Engine}.

#[local] Arguments parse : simpl never.
#[local] Arguments clean_sql : simpl never.
#[local] Arguments txn_effect : simpl never.
#[local] Arguments create_database_query : simpl never.
#[local] Arguments drop_database_query : simpl never.
#[local] Arguments server_reads : simpl never.

Ltac unfold_script :=
  unfold up, down, up_ensure_database, up_apply_schema, get_connection,
    connect, log, set_autocommit, execute, execute_in_txn, commit, rollback,
    close, read_sql_file, with_session, emit, bind, try_except, try_finally,
    sys_exit, ret, accepts, after, admin_config, target_config,
    closed_session;
  rewrite ?parse_create_database_query, ?parse_drop_database_query.

Ltac run_script :=
  repeat first
    [ progress cbn
    | progress unfold create_database, drop_database_if_exists
    | rewrite lookup_insert_eq
    | rewrite insert_insert_eq
    | match goal with H : _ = _ |- _ => rewrite H end ].

Ltac tidy_trace := rewrite <- ?app_assoc; cbn [app].

Ltac settle := unfold_script; run_script; tidy_trace; reflexivity.

(** The first step of [up], in each of its five cases. *)
Lemma up_ensure_database_run (args : Args) (w : world) :
  let conn := fresh (dom (sessions w)) in
  let name := dbname args in
  let opening := [Log INFO (EnsuringDatabase name); Connect (admin_config args)] in
  let issue := [SetAutocommit conn true; Execute conn (create_database_query name)] in
  let ss := <[conn := closed_session "postgres" true]> (sessions w) in
  let failed e :=
    (SysExit 1,
     after (opening ++ issue ++ [Log ERROR (CreateDatabaseFailed e); Close conn])
       (databases w) ss w) in
  up_ensure_database args w
  = if accepts "postgres" w then
      match server_reads name with
      | None => failed (Error "SyntaxError")
      | Some stored =>
          match create_fault w with
          | Some cls => failed (Error cls)
          | None =>
              match databases w !! stored with
              | Some _ =>
                  (Normal tt,
                   after (opening ++ issue
                          ++ [Log INFO (DatabaseAlreadyExists name); Close conn])
                     (databases w) ss w)
              | None =>
                  (Normal tt,
                   after (opening ++ issue
                          ++ [Log INFO (DatabaseCreated name); Close conn])
                     (<[stored := template]> (databases w)) ss w)
              end
          end
      end
    else
      (SysExit 1,
       after (opening
              ++ [Log ERROR (CouldNotConnect "postgres" OperationalError);
                  Log ERROR CheckConnectionDetails])
         (databases w) (sessions w) w).
Proof.
  destruct w as [r cf df dbs ss file tr]. cbn.
  destruct r; [|settle].
  destruct (dbs !! "postgres") as [admin|] eqn:Hadmin; [|settle].
  destruct (server_reads (dbname args)) as [stored|] eqn:Hread; [|settle].
  destruct cf as [cls|]; [settle|].
  destruct (dbs !! stored) as [contents|] eqn:Htarget; settle.
Qed.

(** The second step of [up], in each of its four cases. *)
Lemma up_apply_schema_run (args : Args) (w : world) :
  let conn := fresh (dom (sessions w)) in
  let name := dbname args in
  up_apply_schema args w
  = match sql_file w with
    | None =>
        (SysExit 1,
         after [Log INFO (ApplyingSchema name); OpenSqlFile; Log ERROR SqlFileNotFound]
           (databases w) (sessions w) w)
    | Some script =>
        let opening := [Log INFO (ApplyingSchema name); OpenSqlFile;
                        Connect (target_config args)] in
        let issue := [SetAutocommit conn false;
                      Execute conn (Str (clean_sql script))] in
        let ss := <[conn := closed_session name false]> (sessions w) in
        match (if reachable w then databases w !! name else None) with
        | None =>
            (SysExit 1,
             after (opening
                    ++ [Log ERROR (CouldNotConnect name OperationalError);
                        Log ERROR CheckConnectionDetails])
               (databases w) (sessions w) w)
        | Some contents =>
            match txn_effect (parse (clean_sql script)) contents with
            | inl contents' =>
                (Normal tt,
                 after (opening ++ issue
                        ++ [Commit conn; Log INFO SchemaApplied; Close conn])
                   (<[name := contents']> (databases w)) ss w)
            | inr cls =>
                (SysExit 1,
                 after (opening ++ issue
                        ++ [Rollback conn; Log ERROR (SchemaFailed (Error cls));
                            Close conn])
                   (databases w) ss w)
            end
        end
    end.
Proof.
  destruct w as [r cf df dbs ss file tr]. cbn.
  destruct file as [script|]; [|settle].
  destruct r; [|settle].
  destruct (dbs !! dbname args) as [contents|] eqn:Htarget; [|settle].
  destruct (txn_effect (parse (clean_sql script)) contents) as [contents'|cls] eqn:Hrun;
    settle.
Qed.

(** [down], in each of its six cases. *)
Lemma down_run (args : Args) (w : world) :
  let conn := fresh (dom (sessions w)) in
  let name := dbname args in
  let command := drop_database_query name in
  let opening := [Log INFO (DroppingDatabase name); Connect (admin_config args)] in
  let issue := [SetAutocommit conn true; Log INFO (Executing (query_text command));
                Execute conn command] in
  let ss := <[conn := closed_session "postgres" true]> (sessions w) in
  let failed e :=
    (SysExit 1, after (opening ++ issue ++ [Log ERROR (DownFailed e); Close conn])
                  (databases w) ss w) in
  down args w
  = if accepts "postgres" w then
      match server_reads name with
      | None => failed (Error "SyntaxError")
      | Some stored =>
          match databases w !! stored with
          | None =>
              (Normal tt,
               after (opening ++ issue
                      ++ [Log INFO (DatabaseDropped name); Close conn])
                 (databases w) ss w)
          | Some _ =>
              if bool_decide (stored = "postgres") then failed (Error "ObjectInUse")
              else match drop_fault w with
                   | Some cls => failed (Error cls)
                   | None =>
                       (Normal tt,
                        after (opening ++ issue
                               ++ [Log INFO (DatabaseDropped name); Close conn])
                          (delete stored (databases w)) ss w)
                   end
          end
      end
    else
      (SysExit 1,
       after (opening
              ++ [Log ERROR (CouldNotConnect "postgres" OperationalError);
                  Log ERROR CheckConnectionDetails])
         (databases w) (sessions w) w).
Proof.
  destruct w as [r cf df dbs ss file tr]. cbn.
  destruct r; [|settle].
  destruct (dbs !! "postgres") as [admin|] eqn:Hadmin; [|settle].
  destruct (server_reads (dbname args)) as [stored|] eqn:Hread; [|settle].
  destruct (dbs !! stored) as [contents|] eqn:Htarget; [|settle].
  destruct (bool_decide (stored = "postgres")) eqn:Hsame; [settle|].
  destruct df as [cls|]; settle.
Qed.

End DbRuns.

(** ** Whole runs of manage_db.py *)

Section DbFacts.
Import Text ManageDb.
Context {E : Engine}.

#[local] Arguments parse : simpl never.
#[local] Arguments clean_sql : simpl never.
#[local] Arguments txn_effect : simpl never.
#[local] Arguments create_database_query : simpl never.
#[local] Arguments drop_database_query : simpl never.
#[local] Arguments server_reads : simpl never.

Lemma events_after {A} (m : M world A) (w : world) (r : outcome A)
    (evs : list event) (dbs : gmap string schema) (ss : gmap nat session) :
  m w = (r, after evs dbs ss w) -> events m w = evs.
Proof.
  intros H. unfold events. rewrite H. cbn. apply drop_app_length.
Qed.

Lemma after_after (evs evs' : list event) (dbs dbs' : gmap string schema)
    (ss ss' : gmap nat session) (w : world) :
  after evs' dbs' ss' (after evs dbs ss w) = after (evs ++ evs') dbs' ss' w.
Proof. unfold after. cbn. now rewrite app_assoc. Qed.

(** [up] is its first step followed, when that ends normally, by its
    second. *)
Lemma up_steps (args : Args) (w : world) :
  up args w
  = match up_ensure_database args w with
    | (Normal _, w1) => up_apply_schema args w1
    | (Raised e, w1) => (Raised e, w1)
    | (SysExit c, w1) => (SysExit c, w1)
    end.
Proof. reflexivity. Qed.

Lemma accepts_inv (db : string) (w : world) :
  accepts db w = true -> reachable w = true /\ is_Some (databases w !! db).
Proof.
  unfold accepts. intros [Hr Hd]%andb_prop. split; [exact Hr|].
  now apply bool_decide_eq_true_1 in Hd.
Qed.

Lemma ensured_lookup (name : string) (dbs : gmap string schema) :
  ensured name dbs !! name = Some (default template (dbs !! name)).
Proof.
  unfold ensured. destruct (dbs !! name) eqn:H; cbn; [exact H|].
  apply lookup_insert_eq.
Qed.

Lemma ensured_is_Some (name key : string) (dbs : gmap string schema) :
  is_Some (dbs !! key) -> is_Some (ensured name dbs !! key).
Proof.
  unfold ensured. destruct (dbs !! name); [auto|].
  intros H. apply lookup_insert_is_Some'. now right.
Qed.

Lemma ensured_present (name : string) (dbs : gmap string schema) :
  is_Some (dbs !! name) -> ensured name dbs = dbs.
Proof. unfold ensured. now intros [contents ->]. Qed.

(** A run of [up] on a server that lets the first step pass, for a name
    the server reads as [stored]. *)
Lemma up_run_read (args : Args) (w : world) (script stored : string) :
  accepts "postgres" w = true ->
  create_fault w = None ->
  sql_file w = Some script ->
  server_reads (dbname args) = Some stored ->
  let name := dbname args in
  let dbs1 := ensured stored (databases w) in
  let conn1 := fresh (dom (sessions w)) in
  let ss1 := <[conn1 := closed_session "postgres" true]> (sessions w) in
  let conn2 := fresh (dom ss1) in
  let ss2 := <[conn2 := closed_session name false]> ss1 in
  let evs1 :=
    [Log INFO (EnsuringDatabase name); Connect (admin_config args);
     SetAutocommit conn1 true; Execute conn1 (create_database_query name);
     Log INFO (match databases w !! stored with
               | Some _ => DatabaseAlreadyExists name
               | None => DatabaseCreated name
               end);
     Close conn1;
     Log INFO (ApplyingSchema name); OpenSqlFile; Connect (target_config args)] in
  up args w
  = match dbs1 !! name with
    | None =>
        (SysExit 1,
         after (evs1 ++ [Log ERROR (CouldNotConnect name OperationalError);
                         Log ERROR CheckConnectionDetails])
           dbs1 ss1 w)
    | Some before =>
        let evs := evs1 ++ [SetAutocommit conn2 false;
                            Execute conn2 (Str (clean_sql script))] in
        match txn_effect (parse (clean_sql script)) before with
        | inl contents =>
            (Normal tt,
             after (evs ++ [Commit conn2; Log INFO SchemaApplied; Close conn2])
               (<[name := contents]> dbs1) ss2 w)
        | inr cls =>
            (SysExit 1,
             after (evs ++ [Rollback conn2; Log ERROR (SchemaFailed (Error cls));
                            Close conn2])
               dbs1 ss2 w)
        end
    end.
Proof.
  intros Ha Hf Hs Hread name dbs1 conn1 ss1 conn2 ss2 evs1.
  destruct (accepts_inv _ _ Ha) as [Hr _].
  rewrite up_steps, up_ensure_database_run, Ha, Hread, Hf.
  subst evs1 dbs1. unfold ensured. fold name conn1 ss1.
  destruct (databases w !! stored) as [present|] eqn:Hstored;
    rewrite up_apply_schema_run;
    cbn [sql_file reachable databases sessions after]; rewrite Hs, Hr;
    fold name; fold conn2 ss2;
    (destruct (_ !! name) as [before|];
     [destruct (txn_effect _ before)|]); rewrite after_after; reflexivity.
Qed.

(** A run of [up] on a server that lets the first step pass, for a name
    the server reads as it is written. *)
Lemma up_run (args : Args) (w : world) (script : string) :
  valid_name (dbname args) = true ->
  accepts "postgres" w = true ->
  create_fault w = None ->
  sql_file w = Some script ->
  let name := dbname args in
  let before := default template (databases w !! name) in
  let conn1 := fresh (dom (sessions w)) in
  let ss1 := <[conn1 := closed_session "postgres" true]> (sessions w) in
  let conn2 := fresh (dom ss1) in
  let ss2 := <[conn2 := closed_session name false]> ss1 in
  let evs :=
    [Log INFO (EnsuringDatabase name); Connect (admin_config args);
     SetAutocommit conn1 true; Execute conn1 (create_database_query name);
     Log INFO (match databases w !! name with
               | Some _ => DatabaseAlreadyExists name
               | None => DatabaseCreated name
               end);
     Close conn1;
     Log INFO (ApplyingSchema name); OpenSqlFile; Connect (target_config args);
     SetAutocommit conn2 false; Execute conn2 (Str (clean_sql script))] in
  up args w
  = match txn_effect (parse (clean_sql script)) before with
    | inl contents =>
        (Normal tt,
         after (evs ++ [Commit conn2; Log INFO SchemaApplied; Close conn2])
           (<[name := contents]> (databases w)) ss2 w)
    | inr cls =>
        (SysExit 1,
         after (evs ++ [Rollback conn2; Log ERROR (SchemaFailed (Error cls));
                        Close conn2])
           (ensured name (databases w)) ss2 w)
    end.
Proof.
  intros Hv Ha Hf Hs name before conn1 ss1 conn2 ss2 evs.
  destruct (accepts_inv _ _ Ha) as [Hr _].
  rewrite up_steps, up_ensure_database_run, Ha, (server_reads_valid _ Hv), Hf.
  subst evs before. unfold ensured. fold name conn1 ss1.
  destruct (databases w !! name) as [contents|] eqn:Htarget.
  - rewrite up_apply_schema_run.
    cbn [sql_file reachable databases sessions after]. rewrite Hs, Hr.
    fold name. rewrite Htarget. fold conn2 ss2.
    change (default template (Some contents)) with contents.
    destruct (txn_effect _ contents); rewrite after_after; reflexivity.
  - rewrite up_apply_schema_run.
    cbn [sql_file reachable databases sessions after]. rewrite Hs, Hr.
    fold name. rewrite lookup_insert_eq. fold conn2 ss2.
    change (default template None) with template.
    destruct (txn_effect _ template); rewrite after_after, ?insert_insert_eq;
      reflexivity.
Qed.

(** A run of [up] without the SQL file, on a server that lets the first
    step pass. *)
Lemma up_run_without_file (args : Args) (w : world) :
  valid_name (dbname args) = true ->
  accepts "postgres" w = true ->
  create_fault w = None ->
  sql_file w = None ->
  let name := dbname args in
  let conn1 := fresh (dom (sessions w)) in
  up args w
  = (SysExit 1,
     after [Log INFO (EnsuringDatabase name); Connect (admin_config args);
            SetAutocommit conn1 true; Execute conn1 (create_database_query name);
            Log INFO (match databases w !! name with
                      | Some _ => DatabaseAlreadyExists name
                      | None => DatabaseCreated name
                      end);
            Close conn1;
            Log INFO (ApplyingSchema name); OpenSqlFile; Log ERROR SqlFileNotFound]
       (ensured name (databases w))
       (<[conn1 := closed_session "postgres" true]> (sessions w)) w).
Proof.
  intros Hv Ha Hf Hs name conn1.
  rewrite up_steps, up_ensure_database_run, Ha, (server_reads_valid _ Hv), Hf.
  unfold ensured. fold name conn1.
  destruct (databases w !! name) as [contents|];
    rewrite up_apply_schema_run; cbn [sql_file after]; rewrite Hs;
    now rewrite after_after.
Qed.

(** What the events of a run of [up] that passes its first step show. *)
Lemma up_run_events (args : Args) (w : world) (script : string) :
  valid_name (dbname args) = true ->
  accepts "postgres" w = true ->
  create_fault w = None ->
  sql_file w = Some script ->
  let name := dbname args in
  let evs := events (up args) w in
  executed evs = [create_database_query name; Str (clean_sql script)] /\
  connected evs = ["postgres"; name] /\
  match txn_effect (parse (clean_sql script))
          (default template (databases w !! name)) with
  | inl _ => commits evs = 1 /\ rollbacks evs = 0 /\ logged ERROR evs = []
  | inr cls =>
      commits evs = 0 /\ rollbacks evs = 1 /\
      logged ERROR evs = [SchemaFailed (Error cls)]
  end.
Proof.
  intros Hv Ha Hf Hs name evs. subst evs.
  pose proof (up_run args w script Hv Ha Hf Hs) as Hrun. cbv zeta in Hrun.
  fold name in Hrun.
  destruct (txn_effect _ _) as [contents|cls];
    rewrite (events_after _ _ _ _ _ _ Hrun);
    destruct (databases w !! name); repeat split; reflexivity.
Qed.

(** C2: in [up], the cleaned script is executed as one transaction.  For a
    name the server reads as it is written, on a server that lets the first
    step pass, if the script raises an error the run ends by [sys.exit(1)]
    after one rollback and no commit, the error is logged, and every
    database holds what it held when the transaction began (for a target
    that existed before the run, what it held before the run); if the
    script succeeds, the run commits exactly once and the target holds the
    result of the script. *)
Theorem up_applies_schema_atomically (args : Args) (w : world) (script : string) :
  valid_name (dbname args) = true ->
  accepts "postgres" w = true ->
  create_fault w = None ->
  sql_file w = Some script ->
  let name := dbname args in
  let evs := events (up args) w in
  executed evs = [create_database_query name; Str (clean_sql script)] /\
  match txn_effect (parse (clean_sql script))
          (default template (databases w !! name)) with
  | inr cls =>
      fst (up args w) = SysExit 1 /\
      exit_code (fst (up args w)) = 1%Z /\
      databases (snd (up args w)) = ensured name (databases w) /\
      rollbacks evs = 1 /\ commits evs = 0 /\
      logged ERROR evs = [SchemaFailed (Error cls)]
  | inl contents =>
      fst (up args w) = Normal tt /\
      databases (snd (up args w)) = <[name := contents]> (databases w) /\
      commits evs = 1 /\ rollbacks evs = 0 /\
      logged ERROR evs = []
  end.
Proof.
  intros Hv Ha Hf Hs name evs.
  pose proof (up_run args w script Hv Ha Hf Hs) as Hrun. cbv zeta in Hrun.
  pose proof (up_run_events args w script Hv Ha Hf Hs) as (Hex & _ & Hev).
  cbv zeta in Hex, Hev. fold name in Hrun, Hex, Hev. fold evs in Hex, Hev.
  split; [exact Hex|].
  destruct (txn_effect _ _) as [contents|cls]; rewrite Hrun; cbn; tauto.
Qed.

(** C4: how [up] handles a failure of the create-database statement, for a
    name the server reads as it is written, on a server that accepts the
    administrative connection.  When the statement raises
    DuplicateDatabase, the first step ends normally, logs that the database
    already exists and no error, leaves the databases as they were, and the
    schema application takes place: the run logs that it applies the
    schema, logs no failure of the creation, and opens the SQL file once;
    when the file is there it connects to the target, executes the cleaned
    script there and ends the transaction by one commit or one rollback,
    and when the file is missing that is the only error logged.  When the
    statement raises any other exception, the run ends by [sys.exit(1)]
    with the error logged, and nothing of the schema application happens:
    the SQL file is not opened, no second connection is made, no other
    statement is executed. *)
Theorem up_create_database_failure (args : Args) (w : world) :
  valid_name (dbname args) = true ->
  accepts "postgres" w = true ->
  let name := dbname args in
  let step1 := up_ensure_database args w in
  let evs1 := events (up_ensure_database args) w in
  let evs := events (up args) w in
  match fst (create_database name w) with
  | Raised DuplicateDatabase =>
      fst step1 = Normal tt /\
      logged INFO evs1 = [EnsuringDatabase name; DatabaseAlreadyExists name] /\
      logged ERROR evs1 = [] /\
      databases (snd step1) = databases w /\
      up args w = up_apply_schema args (snd step1) /\
      In (ApplyingSchema name) (logged INFO evs) /\
      file_reads evs = 1 /\
      match sql_file w with
      | Some script =>
          connected evs = ["postgres"; name] /\
          executed evs = [create_database_query name; Str (clean_sql script)] /\
          commits evs + rollbacks evs = 1
      | None =>
          fst (up args w) = SysExit 1 /\
          connected evs = ["postgres"] /\
          executed evs = [create_database_query name] /\
          logged ERROR evs = [SqlFileNotFound]
      end
  | Raised e =>
      fst (up args w) = SysExit 1 /\
      exit_code (fst (up args w)) = 1%Z /\
      logged ERROR evs = [CreateDatabaseFailed e] /\
      executed evs = [create_database_query name] /\
      connected evs = ["postgres"] /\
      ~ In OpenSqlFile evs /\
      commits evs = 0 /\
      databases (snd (up args w)) = databases w
  | _ => True
  end.
Proof.
  intros Hv Ha name step1 evs1 evs. subst step1 evs1 evs.
  pose proof (up_ensure_database_run args w) as Hrun. cbv zeta in Hrun.
  rewrite Ha, (server_reads_valid _ Hv) in Hrun. fold name in Hrun.
  unfold create_database.
  destruct (create_fault w) as [cls|] eqn:Hf; cbn [fst].
  - assert (Hup : up args w = up_ensure_database args w)
      by now rewrite up_steps, Hrun.
    rewrite Hrun in Hup.
    rewrite (events_after _ _ _ _ _ _ Hup), Hup.
    repeat split; try reflexivity.
    cbn. intros H. repeat destruct H as [H|H]; try discriminate H; exact H.
  - destruct (databases w !! name) as [contents|] eqn:Htarget; [|exact I].
    cbn [fst]. rewrite (events_after _ _ _ _ _ _ Hrun).
    split; [now rewrite Hrun|]. split; [reflexivity|]. split; [reflexivity|].
    split; [now rewrite Hrun|]. split; [now rewrite up_steps, Hrun|].
    destruct (sql_file w) as [script|] eqn:Hs.
    + pose proof (up_run args w script Hv Ha Hf Hs) as Hup. cbv zeta in Hup.
      fold name in Hup. rewrite Htarget in Hup.
      destruct (txn_effect _ _) as [contents'|cls];
        rewrite (events_after _ _ _ _ _ _ Hup);
        (split; [right; right; left; reflexivity|]);
        repeat split; reflexivity.
    + pose proof (up_run_without_file args w Hv Ha Hf Hs) as Hup.
      cbv zeta in Hup. fold name in Hup. rewrite Htarget in Hup.
      rewrite (events_after _ _ _ _ _ _ Hup), Hup.
      split; [right; right; left; reflexivity|]. repeat split; reflexivity.
Qed.

(** C8, as the code has it: [up] makes its administrative connection to
    the database named postgres and sends CREATE DATABASE on it whether or
    not the target exists; it sends no other statement there, in
    particular none that looks the target up.  The server refuses the empty
    name as a syntax error, which ends the run by [sys.exit(1)], and reads
    every other name as [stored], the name cut to the length the server
    keeps, which is the name itself unless it is too long.  An existing
    database of that name shows as the server's DuplicateDatabase error,
    which is logged as a skipped creation and leaves the databases as they
    were. *)
Theorem up_creates_without_lookup (args : Args) (w : world) :
  accepts "postgres" w = true ->
  let name := dbname args in
  let step1 := up_ensure_database args w in
  let evs1 := events (up_ensure_database args) w in
  connected evs1 = ["postgres"] /\
  executed evs1 = [create_database_query name] /\
  match server_reads name with
  | None =>
      parse (query_text (create_database_query name)) = Rejected "SyntaxError" /\
      fst step1 = SysExit 1 /\ databases (snd step1) = databases w
  | Some stored =>
      parse (query_text (create_database_query name)) = CreateDatabase stored /\
      (valid_name name = true -> stored = name) /\
      match create_fault w, databases w !! stored with
      | Some _, _ => fst step1 = SysExit 1 /\ databases (snd step1) = databases w
      | None, Some _ =>
          fst step1 = Normal tt /\
          logged INFO evs1 = [EnsuringDatabase name; DatabaseAlreadyExists name] /\
          databases (snd step1) = databases w
      | None, None =>
          fst step1 = Normal tt /\
          logged INFO evs1 = [EnsuringDatabase name; DatabaseCreated name] /\
          databases (snd step1) = <[stored := template]> (databases w)
      end
  end.
Proof.
  intros Ha name step1 evs1. subst step1 evs1.
  pose proof (up_ensure_database_run args w) as Hrun. cbv zeta in Hrun.
  rewrite Ha in Hrun. fold name in Hrun.
  rewrite parse_create_database_query.
  destruct (server_reads name) as [stored|] eqn:Hread.
  - assert (Hsame : valid_name name = true -> stored = name).
    { intros Hv. rewrite (server_reads_valid _ Hv) in Hread. congruence. }
    destruct (create_fault w) as [cls|];
      [|destruct (databases w !! stored) as [contents|]];
      rewrite (events_after _ _ _ _ _ _ Hrun), Hrun;
      (split; [reflexivity|]); (split; [reflexivity|]);
      (split; [reflexivity|]);
      (split; [exact Hsame|]); repeat split; reflexivity.
  - rewrite (events_after _ _ _ _ _ _ Hrun), Hrun.
    split; [reflexivity|]. split; [reflexivity|].
    repeat split; reflexivity.
Qed.

(** C9: the statements of [up] and [down] embed the database name as an
    [Identifier] fragment of a composed query.  For every name, the text
    sent is the keyword followed by the name between double quotes with its
    own double quotes doubled; the characters the server's lexer finds
    between the quotes are exactly those of the name, with nothing left
    over after the closing quote, so no part of the name is read as SQL.
    The server refuses the empty name as a syntax error and reads every
    other name as one identifier, cut to the length of a name, so the whole
    text is CREATE DATABASE, respectively DROP DATABASE IF EXISTS, of that
    one name, which is the name given when that is not too long.  These are
    the only statements the first step of [up] and [down] execute. *)
Theorem database_name_is_escaped (args : Args) (w : world) :
  let name := dbname args in
  create_database_query name
    = Composed [SQL "CREATE DATABASE "; Identifier name] /\
  drop_database_query name
    = Composed [SQL "DROP DATABASE IF EXISTS "; Identifier name] /\
  query_text (create_database_query name)
    = "CREATE DATABASE " +:+ quote_ident name /\
  query_text (drop_database_query name)
    = "DROP DATABASE IF EXISTS " +:+ quote_ident name /\
  quote_ident name
    = String dquote (escape_quotes name +:+ String dquote EmptyString) /\
  scan_literal (escape_quotes name +:+ String dquote EmptyString)
    = Some (name, EmptyString) /\
  scan_ident (quote_ident name) = Some (server_reads name, EmptyString) /\
  parse (query_text (create_database_query name))
    = match server_reads name with
      | Some stored => CreateDatabase stored
      | None => Rejected "SyntaxError"
      end /\
  parse (query_text (drop_database_query name))
    = match server_reads name with
      | Some stored => DropDatabaseIfExists stored
      | None => Rejected "SyntaxError"
      end /\
  server_reads name
    = (if String.eqb name EmptyString then None
       else if valid_name name then Some name
       else Some (clip (NAMEDATALEN - 1) name)) /\
  executed (events (up_ensure_database args) w)
    = (if accepts "postgres" w then [create_database_query name] else []) /\
  executed (events (down args) w)
    = (if accepts "postgres" w then [drop_database_query name] else []).
Proof.
  intros name.
  split; [reflexivity|]. split; [reflexivity|].
  split; [apply create_database_query_text|].
  split; [apply drop_database_query_text|].
  split; [reflexivity|].
  split; [apply scan_literal_quote_ident|].
  split; [apply scan_ident_quote_ident|].
  split; [apply parse_create_database_query|].
  split; [apply parse_drop_database_query|].
  split.
  { unfold server_reads, valid_name, truncate_identifier.
    destruct name as [|c rest]; [reflexivity|].
    change (String.eqb (String c rest) EmptyString) with false. cbv iota.
    now destruct (utf8_length (String c rest) <? NAMEDATALEN)%nat. }
  pose proof (up_ensure_database_run args w) as Hup. cbv zeta in Hup.
  pose proof (down_run args w) as Hdown. cbv zeta in Hdown.
  fold name in Hup, Hdown.
  destruct (accepts "postgres" w); split.
  - destruct (server_reads name) as [stored|];
      [destruct (create_fault w); [|destruct (databases w !! stored)]|];
      rewrite (events_after _ _ _ _ _ _ Hup); reflexivity.
  - destruct (server_reads name) as [stored|];
      [destruct (databases w !! stored);
       [destruct (bool_decide (stored = "postgres")); [|destruct (drop_fault w)]|]|];
      rewrite (events_after _ _ _ _ _ _ Hdown); reflexivity.
  - rewrite (events_after _ _ _ _ _ _ Hup); reflexivity.
  - rewrite (events_after _ _ _ _ _ _ Hdown); reflexivity.
Qed.

(** C10: when [up] has created the database and its schema application
    then fails (the SQL file is missing, or the script raises an error),
    the run ends with exit status 1 and the created database is still
    there, holding the template contents: apart from CREATE DATABASE and the
    script, no statement is executed, in particular no DROP DATABASE.  The
    name is one the server reads as it is written. *)
Theorem up_failure_keeps_created_database (args : Args) (w : world) :
  valid_name (dbname args) = true ->
  accepts "postgres" w = true ->
  create_fault w = None ->
  databases w !! dbname args = None ->
  fst (up args w) <> Normal tt ->
  let name := dbname args in
  let evs := events (up args) w in
  exit_code (fst (up args w)) = 1%Z /\
  databases (snd (up args w)) = <[name := template]> (databases w) /\
  executed evs
    = create_database_query name
      :: match sql_file w with
         | Some script => [Str (clean_sql script)]
         | None => []
         end /\
  ~ In (drop_database_query name) (executed evs) /\
  commits evs = 0.
Proof.
  intros Hv Ha Hf Htarget Hfail name evs. subst evs.
  destruct (sql_file w) as [script|] eqn:Hs.
  - pose proof (up_run args w script Hv Ha Hf Hs) as Hrun. cbv zeta in Hrun.
    unfold ensured in Hrun. rewrite Htarget in Hrun. fold name in Hrun.
    destruct (txn_effect _ _) as [contents|cls].
    + exfalso. apply Hfail. now rewrite Hrun.
    + rewrite (events_after _ _ _ _ _ _ Hrun), Hrun.
      repeat split; try reflexivity.
      cbn. intros [H|[H|[]]]; discriminate H.
  - pose proof (up_run_without_file args w Hv Ha Hf Hs) as Hrun.
    cbv zeta in Hrun. unfold ensured in Hrun. rewrite Htarget in Hrun.
    fold name in Hrun.
    rewrite (events_after _ _ _ _ _ _ Hrun), Hrun.
    repeat split; try reflexivity.
    cbn. intros [H|[]]; discriminate H.
Qed.

(** A run of [up] that ends normally went through every step. *)
Lemma up_normal_inv (args : Args) (w : world) :
  fst (up args w) = Normal tt ->
  exists script stored before contents,
    accepts "postgres" w = true /\
    create_fault w = None /\
    sql_file w = Some script /\
    server_reads (dbname args) = Some stored /\
    ensured stored (databases w) !! dbname args = Some before /\
    txn_effect (parse (clean_sql script)) before = inl contents.
Proof.
  intros Hok.
  destruct (accepts "postgres" w) eqn:Ha;
    [|now rewrite up_steps, up_ensure_database_run, Ha in Hok].
  destruct (server_reads (dbname args)) as [stored|] eqn:Hread;
    [|now rewrite up_steps, up_ensure_database_run, Ha, Hread in Hok].
  destruct (create_fault w) as [cls|] eqn:Hf;
    [now rewrite up_steps, up_ensure_database_run, Ha, Hread, Hf in Hok|].
  destruct (sql_file w) as [script|] eqn:Hs.
  - exists script, stored.
    rewrite (up_run_read args w script stored Ha Hf Hs Hread) in Hok.
    destruct (ensured stored (databases w) !! dbname args) as [before|];
      [|discriminate Hok].
    exists before.
    destruct (txn_effect _ _) as [contents|cls]; [|discriminate Hok].
    exists contents. auto 10.
  - exfalso. rewrite up_steps, up_ensure_database_run, Ha, Hread, Hf in Hok.
    destruct (databases w !! stored);
      rewrite up_apply_schema_run in Hok; cbn [sql_file after] in Hok;
      rewrite Hs in Hok; discriminate Hok.
Qed.

(** The same for a name the server reads as it is written. *)
Lemma up_normal_inv_valid (args : Args) (w : world) :
  valid_name (dbname args) = true ->
  fst (up args w) = Normal tt ->
  exists script contents,
    accepts "postgres" w = true /\
    create_fault w = None /\
    sql_file w = Some script /\
    txn_effect (parse (clean_sql script))
      (default template (databases w !! dbname args)) = inl contents.
Proof.
  intros Hv Hok.
  destruct (up_normal_inv args w Hok)
    as (script & stored & before & contents & Ha & Hf & Hs & Hread & Hb & Hrun).
  rewrite (server_reads_valid _ Hv) in Hread. injection Hread as <-.
  rewrite ensured_lookup in Hb. injection Hb as <-.
  exists script, contents. auto.
Qed.

(** The database part of C1: what a second run of [up] does after a first
    one that ended normally. *)
Lemma up_second_run (args : Args) (w : world) :
  fst (up args w) = Normal tt ->
  let name := dbname args in
  let w1 := snd (up args w) in
  let evs2 := events (up args) w1 in
  executed evs2
    = [create_database_query name;
       Str (clean_sql (default EmptyString (sql_file w)))] /\
  In (DatabaseAlreadyExists name) (logged INFO evs2) /\
  dom (databases (snd (up args w1))) = dom (databases w1).
Proof.
  intros Hok name w1 evs2.
  destruct (up_normal_inv args w Hok)
    as (script & stored & before & contents & Ha & Hf & Hs & Hread & Hb & Hrun).
  pose proof (up_run_read args w script stored Ha Hf Hs Hread) as Hup.
  cbv zeta in Hup. rewrite Hb, Hrun in Hup. fold name in Hup.
  assert (Hdb1 : databases w1 = <[name := contents]> (ensured stored (databases w)))
    by (subst w1; now rewrite Hup).
  assert (Ha1 : accepts "postgres" w1 = true).
  { destruct (accepts_inv _ _ Ha) as [Hr Hp].
    unfold accepts. subst w1. rewrite Hup. cbn [snd after reachable databases].
    rewrite Hr. apply bool_decide_eq_true_2.
    apply lookup_insert_is_Some'. right. now apply ensured_is_Some. }
  assert (Hf1 : create_fault w1 = None) by (subst w1; now rewrite Hup).
  assert (Hs1 : sql_file w1 = Some script) by (subst w1; now rewrite Hup).
  assert (Hstored1 : is_Some (databases w1 !! stored)).
  { rewrite Hdb1. apply lookup_insert_is_Some'. right.
    rewrite ensured_lookup. eauto. }
  assert (Ht1 : databases w1 !! name = Some contents)
    by (rewrite Hdb1; apply lookup_insert_eq).
  pose proof (up_run_read args w1 script stored Ha1 Hf1 Hs1 Hread) as Hup1.
  cbv zeta in Hup1. fold name in Hup1.
  rewrite (ensured_present _ _ Hstored1), Ht1 in Hup1.
  destruct Hstored1 as [present Hstored1]. rewrite Hstored1 in Hup1.
  rewrite Hs. change (default EmptyString (Some script)) with script.
  subst evs2. clear Hrun.
  destruct (txn_effect (parse (clean_sql script)) contents) as [contents'|cls];
    rewrite (events_after _ _ _ _ _ _ Hup1), Hup1;
    cbn [snd after databases].
  - split; [reflexivity|]. split; [right; left; reflexivity|].
    rewrite dom_insert_L.
    apply subseteq_union_1_L, singleton_subseteq_l, elem_of_dom. eauto.
  - split; [reflexivity|]. split; [right; left; reflexivity|]. reflexivity.
Qed.

(** The database part of C5: [down] when the target is not there. *)
Lemma down_absent (args : Args) (w : world) :
  valid_name (dbname args) = true ->
  accepts "postgres" w = true ->
  databases w !! dbname args = None ->
  let evs := events (down args) w in
  fst (down args w) = Normal tt /\
  databases (snd (down args w)) = databases w /\
  executed evs = [drop_database_query (dbname args)] /\
  logged WARNING evs = [] /\
  logged ERROR evs = [] /\
  logged INFO evs
    = [DroppingDatabase (dbname args);
       Executing (query_text (drop_database_query (dbname args)));
       DatabaseDropped (dbname args)].
Proof.
  intros Hv Ha Htarget evs. subst evs.
  pose proof (down_run args w) as Hrun. cbv zeta in Hrun.
  rewrite Ha, (server_reads_valid _ Hv), Htarget in Hrun.
  rewrite (events_after _ _ _ _ _ _ Hrun), Hrun. repeat split; reflexivity.
Qed.

Lemma down_twice (args : Args) (w : world) :
  valid_name (dbname args) = true ->
  accepts "postgres" w = true ->
  drop_fault w = None ->
  dbname args <> "postgres" ->
  let w1 := snd (down args w) in
  let evs2 := events (down args) w1 in
  fst (down args w) = Normal tt /\
  databases w1 !! dbname args = None /\
  fst (down args w1) = Normal tt /\
  databases (snd (down args w1)) = databases w1 /\
  executed evs2 = [drop_database_query (dbname args)] /\
  logged WARNING evs2 = [] /\
  logged ERROR evs2 = [] /\
  logged INFO evs2
    = [DroppingDatabase (dbname args);
       Executing (query_text (drop_database_query (dbname args)));
       DatabaseDropped (dbname args)].
Proof.
  intros Hv Ha Hf Hne w1 evs2.
  pose proof (down_run args w) as Hrun. cbv zeta in Hrun.
  rewrite Ha, (server_reads_valid _ Hv), Hf, (bool_decide_eq_false_2 _ Hne) in Hrun.
  assert (Hw1 : reachable w1 = reachable w /\
                databases w1 = delete (dbname args) (databases w) /\
                fst (down args w) = Normal tt).
  { subst w1. rewrite Hrun.
    destruct (databases w !! dbname args) eqn:Htarget; cbn; repeat split; try reflexivity.
    symmetry. now apply delete_id. }
  destruct Hw1 as (Hr1 & Hd1 & Hok).
  assert (Ht1 : databases w1 !! dbname args = None)
    by (rewrite Hd1; apply lookup_delete_eq).
  assert (Ha1 : accepts "postgres" w1 = true).
  { destruct (accepts_inv _ _ Ha) as [Hr Hp]. unfold accepts.
    rewrite Hr1, Hr, Hd1. apply bool_decide_eq_true_2.
    rewrite lookup_delete_ne by exact Hne. exact Hp. }
  destruct (down_absent args w1 Hv Ha1 Ht1) as (H1 & H2 & H3 & H4 & H5 & H6).
  auto 10.
Qed.

(** The database part of C7. *)
Lemma db_connectivity_failure (args : Args) (w : world) :
  reachable w = false ->
  let evs := events (main args) w in
  fst (main args w) = SysExit 1 /\
  connected evs = ["postgres"] /\
  executed evs = [] /\
  logged ERROR evs
    = [CouldNotConnect "postgres" OperationalError; CheckConnectionDetails].
Proof.
  intros Hr evs. subst evs.
  assert (Ha : accepts "postgres" w = false) by (unfold accepts; now rewrite Hr).
  unfold events, main. destruct (String.eqb (action args) "up").
  - rewrite up_steps, up_ensure_database_run, Ha. cbn [fst snd after trace].
    rewrite drop_app_length. repeat split; reflexivity.
  - rewrite down_run, Ha. cbn [fst snd after trace].
    rewrite drop_app_length. repeat split; reflexivity.
Qed.

Lemma db_exit_code (args : Args) (w : world) :
  exit_code (fst (main args w))
  = if completed (events (main args) w) then 0%Z else 1%Z.
Proof.
  assert (Hlast : forall (r : outcome unit) evs dbs ss,
            exit_code r = (if completed evs then 0%Z else 1%Z) ->
            exit_code (fst (r, after evs dbs ss w))
            = if completed (drop (length (trace w))
                              (trace (snd (r, after evs dbs ss w))))
              then 0%Z else 1%Z).
  { intros r evs dbs ss H. cbn [fst snd after trace].
    now rewrite drop_app_length. }
  unfold events, main. destruct (String.eqb (action args) "up").
  - rewrite up_steps, up_ensure_database_run.
    destruct (accepts "postgres" w); [|now apply Hlast].
    destruct (server_reads (dbname args)) as [stored|]; [|now apply Hlast].
    destruct (create_fault w); [now apply Hlast|].
    destruct (databases w !! stored) as [contents|] eqn:Htarget;
      rewrite up_apply_schema_run;
      cbn [sql_file reachable databases sessions after];
      (destruct (sql_file w); [|rewrite after_after; now apply Hlast]);
      (destruct (reachable w); [|rewrite after_after; now apply Hlast]);
      (destruct (_ !! dbname args);
       [destruct (txn_effect _ _)|]); rewrite after_after; now apply Hlast.
  - rewrite down_run.
    destruct (accepts "postgres" w); [|now apply Hlast].
    destruct (server_reads (dbname args)) as [stored|]; [|now apply Hlast].
    destruct (databases w !! stored); [|now apply Hlast].
    destruct (bool_decide _); [now apply Hlast|].
    destruct (drop_fault w); now apply Hlast.
Qed.

End DbFacts.

(** ** Runs of manage_topics.py *)

Section TopicRuns.
Import ManageTopics.

Lemma add_events_nil (w : world) : add_events [] w = w.
Proof. destruct w. unfold add_events. cbn. now rewrite app_nil_r. Qed.

Lemma add_events_app (evs evs' : list event) (w : world) :
  add_events evs' (add_events evs w) = add_events (evs ++ evs') w.
Proof. unfold add_events. cbn. now rewrite app_assoc. Qed.

Lemma events_add_events {A} (m : M world A) (w w' : world) (r : outcome A)
    (evs : list event) :
  m w = (r, w') -> trace w' = trace w ++ evs -> events m w = evs.
Proof.
  intros H Ht. unfold events. rewrite H. cbn. rewrite Ht. apply drop_app_length.
Qed.

Lemma for_each_emit {A} (f : A -> event) (xs : list A) (w : world) :
  for_each xs (fun x => emit (f x)) w = (Normal tt, add_events (f <$> xs) w).
Proof.
  revert w. induction xs as [|x xs IH]; intros w.
  - cbn. now rewrite add_events_nil.
  - cbn [for_each]. unfold bind.
    change (emit (f x) w) with (Normal tt, add_events [f x] w).
    cbv beta iota. now rewrite IH, add_events_app.
Qed.

(** The loop of [create_topics]: it appends a request for every name that
    is not among the existing ones and logs a warning for every other. *)
Lemma create_topics_loop_run (existing : list string) (np rf : Z)
    (names : list string) (acc : list NewTopic) (w : world) :
  create_topics_loop existing np rf names acc w
  = (Normal (acc ++ ((fun n => {| name := n; num_partitions := np;
                                  replication_factor := rf |})
                       <$> missing existing names)),
     add_events
       ((fun n => Log WARNING (TopicAlreadyExists n))
          <$> List.filter (fun n => bool_decide (n ∈ existing)) names) w).
Proof.
  revert acc w. induction names as [|n names IH]; intros acc w.
  - cbn. now rewrite app_nil_r, add_events_nil.
  - cbn [create_topics_loop missing List.filter].
    destruct (bool_decide (n ∈ existing)); cbn [negb].
    + unfold bind, log.
      change (emit (Log WARNING (TopicAlreadyExists n)) w)
        with (Normal tt, add_events [Log WARNING (TopicAlreadyExists n)] w).
      cbv beta iota. rewrite IH, add_events_app. reflexivity.
    + rewrite IH, <- app_assoc. reflexivity.
Qed.

Lemma name_new_topic (np rf : Z) (names : list string) :
  name <$> ((fun n => {| name := n; num_partitions := np;
                          replication_factor := rf |}) <$> names)
  = names.
Proof.
  induction names as [|n names IH]; [reflexivity|]. cbn. now rewrite IH.
Qed.

Lemma missing_spec (s : gset string) (names : list string) (n : string) :
  n ∈ missing (elements s) names <-> n ∈ names /\ n ∉ s.
Proof.
  unfold missing. rewrite list_elem_of_In, filter_In, <- list_elem_of_In.
  rewrite negb_true_iff, bool_decide_eq_false, elem_of_elements. tauto.
Qed.

Lemma missing_fresh (s : gset string) (names : list string) :
  ~ Exists (fun n => n ∈ s) (missing (elements s) names).
Proof.
  rewrite Exists_exists. intros (n & Hin & Hs).
  apply missing_spec in Hin. tauto.
Qed.

Lemma missing_set (s : gset string) (names : list string) :
  s ∪ list_to_set (missing (elements s) names) = s ∪ list_to_set names.
Proof.
  apply set_eq. intros n.
  rewrite !elem_of_union, !elem_of_list_to_set, missing_spec.
  destruct (decide (n ∈ s)); tauto.
Qed.

Lemma missing_nil (s : gset string) (names : list string) :
  missing (elements s) names = [] <-> Forall (fun n => n ∈ s) names.
Proof.
  rewrite Forall_forall. split.
  - intros Hnil n Hn. destruct (decide (n ∈ s)) as [|Hns]; [assumption|].
    assert (H : n ∈ missing (elements s) names) by now apply missing_spec.
    rewrite Hnil in H. now apply elem_of_nil in H.
  - intros Hall. destruct (missing (elements s) names) as [|n l] eqn:Hm; [reflexivity|].
    assert (H : n ∈ missing (elements s) names) by (rewrite Hm; left).
    apply missing_spec in H as [Hn Hns]. exfalso. auto.
Qed.

Ltac unfold_topics :=
  unfold add_events, set_topics, set_admin_client; cbn;
  repeat first [rewrite <- app_assoc | progress (cbn [app])].

Lemma emit_run (ev : event) (w : world) :
  emit ev w = (Normal tt, add_events [ev] w).
Proof. reflexivity. Qed.

Lemma log_run (lvl : level) (msg : message) (w : world) :
  log lvl msg w = (Normal tt, add_events [Log lvl msg] w).
Proof. reflexivity. Qed.

(** [create_topics], in each of its four cases. *)
Lemma create_topics_run (names : list string) (np rf : Z) (w : world) :
  let existing := elements (topics w) in
  let wanted := missing existing names in
  let to_create :=
    (fun n => {| name := n; num_partitions := np; replication_factor := rf |})
      <$> wanted in
  let warned :=
    ListTopics
    :: ((fun n => Log WARNING (TopicAlreadyExists n))
          <$> List.filter (fun n => bool_decide (n ∈ existing)) names) in
  create_topics names np rf w
  = match listing_fault w with
    | Some cls => (Raised (Error cls), add_events [ListTopics] w)
    | None =>
        match wanted with
        | [] => (Normal tt, add_events (warned ++ [Log INFO NoNewTopics]) w)
        | _ =>
            if authorized w then
              (Normal tt,
               set_topics (topics w ∪ list_to_set wanted)
                 (add_events
                    (warned ++ CreateTopics to_create false
                       :: ((fun t => Log INFO (TopicCreated (name t))) <$> to_create))
                    w))
            else
              (Normal tt,
               add_events
                 (warned ++
                    [CreateTopics to_create false;
                     Log ERROR (CreateTopicsFailed (Error "TopicAuthorizationFailedError"))])
                 w)
        end
    end.
Proof.
  intros existing wanted to_create warned.
  unfold create_topics, list_topics, bind.
  rewrite emit_run. cbv beta iota.
  change (listing_fault (add_events [ListTopics] w)) with (listing_fault w).
  destruct (listing_fault w) as [cls|]; [reflexivity|].
  change (topics (add_events [ListTopics] w)) with (topics w).
  fold existing. rewrite create_topics_loop_run. cbn [app].
  fold wanted to_create. rewrite add_events_app. cbn [app]. fold warned.
  pose proof (missing_fresh (topics w) names) as Hfresh.
  fold existing wanted in Hfresh.
  subst to_create.
  destruct wanted as [|n l] eqn:Hw; cbn [fmap list_fmap].
  { now rewrite log_run, add_events_app. }
  set (to_create := _ :: _).
  unfold try_except, client_create_topics, bind.
  rewrite emit_run. cbv beta iota. rewrite add_events_app.
  change (authorized (add_events _ w)) with (authorized w).
  destruct (authorized w) eqn:Hauth; cbn [negb].
  - change (topics (add_events _ w)) with (topics w).
    assert (Hnames : name <$> to_create = n :: l)
      by apply (name_new_topic np rf (n :: l)).
    rewrite Hnames, bool_decide_eq_false_2 by exact Hfresh.
    unfold log.
    rewrite (for_each_emit (fun t => Log INFO (TopicCreated (name t)))).
    destruct w. unfold_topics. reflexivity.
  - now rewrite log_run, add_events_app, <- app_assoc.
Qed.

(** [delete_topics], in each of its three cases. *)
Lemma delete_topics_run (names : list string) (w : world) :
  delete_topics names w
  = if authorized w then
      if bool_decide (Exists (fun n => n ∉ topics w) names) then
        (Normal tt,
         set_topics (topics w ∖ list_to_set names)
           (add_events
              [DeleteTopics names;
               Log WARNING (TopicsDoNotExist UnknownTopicOrPartitionError)] w))
      else
        (Normal tt,
         set_topics (topics w ∖ list_to_set names)
           (add_events
              (DeleteTopics names
                 :: ((fun n => Log INFO (DeletionRequestSent n)) <$> names)) w))
    else
      (Normal tt,
       add_events
         [DeleteTopics names;
          Log ERROR (DeleteTopicsFailed (Error "TopicAuthorizationFailedError"))]
         w).
Proof.
  unfold delete_topics, try_except, client_delete_topics, bind.
  rewrite emit_run. cbv beta iota.
  change (authorized (add_events _ w)) with (authorized w).
  change (topics (add_events _ w)) with (topics w).
  destruct (authorized w); cbn [negb].
  - destruct (bool_decide _).
    + rewrite log_run. destruct w. unfold_topics. reflexivity.
    + unfold log.
      rewrite (for_each_emit (fun n => Log INFO (DeletionRequestSent n))).
      destruct w. unfold_topics. reflexivity.
  - now rewrite log_run, add_events_app.
Qed.

(** Observations on traces made of log records only. *)
Lemma omap_logs {A B} (g : event -> option B) (f : A -> event) (xs : list A) :
  (forall x, g (f x) = None) -> omap g (f <$> xs) = [].
Proof.
  intros H. induction xs as [|x xs IH]; [reflexivity|].
  cbn. now rewrite H.
Qed.

Lemma trace_set_topics (t : gset string) (w : world) :
  trace (set_topics t w) = trace w.
Proof. reflexivity. Qed.

Lemma trace_add_events (evs : list event) (w : world) :
  trace (add_events evs w) = trace w ++ evs.
Proof. reflexivity. Qed.

Lemma omap_skip {A B} (g : A -> option B) (x : A) (l : list A) :
  g x = None -> omap g (x :: l) = omap g l.
Proof. intros H. cbn. now rewrite H. Qed.

Lemma omap_keep {A B} (g : A -> option B) (x : A) (y : B) (l : list A) :
  g x = Some y -> omap g (x :: l) = y :: omap g l.
Proof. intros H. cbn. now rewrite H. Qed.

(** Observations that ignore the listing and the warnings of the loop of
    [create_topics]. *)
Lemma omap_warned {B} (g : event -> option B) (names : list string)
    (rest : list event) :
  g ListTopics = None ->
  (forall n, g (Log WARNING (TopicAlreadyExists n)) = None) ->
  omap g ((ListTopics
             :: ((fun n => Log WARNING (TopicAlreadyExists n)) <$> names))
          ++ rest)
  = omap g rest.
Proof.
  intros Hl Hw.
  change ((ListTopics :: ?l) ++ rest) with (ListTopics :: (l ++ rest)).
  rewrite (omap_skip _ _ _ Hl), omap_app.
  now rewrite (omap_logs g (fun n => Log WARNING (TopicAlreadyExists n))).
Qed.

(** [create_topics] when the listing fails: the error leaves the function,
    which has sent nothing else. *)
Lemma create_topics_stalled (names : list string) (np rf : Z) (w : world)
    (cls : string) :
  listing_fault w = Some cls ->
  create_topics names np rf w = (Raised (Error cls), add_events [ListTopics] w).
Proof.
  intros Hfault.
  pose proof (create_topics_run names np rf w) as Hrun. cbv zeta in Hrun.
  now rewrite Hfault in Hrun.
Qed.

(** What a run of [create_topics] leaves and shows when the listing
    succeeds. *)
Lemma create_topics_effect (names : list string) (np rf : Z) (w : world) :
  listing_fault w = None ->
  let wanted := missing (elements (topics w)) names in
  let run := create_topics names np rf w in
  let evs := events (create_topics names np rf) w in
  fst run = Normal tt /\
  authorized (snd run) = authorized w /\
  topics (snd run)
    = (if authorized w then topics w ∪ list_to_set names else topics w) /\
  create_requests evs = match wanted with [] => [] | _ => [wanted] end /\
  match wanted with
  | [] => logged INFO evs = [NoNewTopics]
  | _ =>
      In (CreateTopics
            ((fun n => {| name := n; num_partitions := np;
                          replication_factor := rf |}) <$> wanted) false) evs
  end.
Proof.
  intros Hfault wanted run evs. subst run evs.
  pose proof (create_topics_run names np rf w) as Hrun. cbv zeta in Hrun.
  rewrite Hfault in Hrun.
  pose proof (missing_set (topics w) names) as Hset.
  fold wanted in Hrun, Hset.
  destruct wanted as [|n l] eqn:Hw.
  - rewrite (events_add_events _ _ _ _ _ Hrun (trace_add_events _ _)), Hrun.
    cbn [fst snd].
    change (authorized (add_events _ w)) with (authorized w).
    change (topics (add_events _ w)) with (topics w).
    split; [reflexivity|]. split; [reflexivity|]. split; [|split].
    + destruct (authorized w); [|reflexivity].
      rewrite <- Hset. cbn. now rewrite union_empty_r_L.
    + unfold create_requests. now rewrite omap_warned.
    + unfold logged. now rewrite omap_warned.
  - destruct (authorized w) eqn:Hauth;
      rewrite (events_add_events _ _ _ _ _ Hrun eq_refl), Hrun; cbn [fst snd];
      (split; [reflexivity|]); (split; [exact Hauth|]); split; [| |reflexivity|];
      try exact Hset.
    + split; [|apply in_or_app; right; left; reflexivity].
      unfold create_requests. rewrite omap_warned by reflexivity.
      erewrite omap_keep by reflexivity. rewrite name_new_topic.
      now rewrite omap_logs.
    + split; [|apply in_or_app; right; left; reflexivity].
      unfold create_requests. rewrite omap_warned by reflexivity.
      erewrite omap_keep by reflexivity. now rewrite name_new_topic.
Qed.

(** [create_topics] ends normally or by the error of the listing, and
    leaves the cluster's answer to listings as it was. *)
Lemma create_topics_outcome (names : list string) (np rf : Z) (w : world) :
  let run := create_topics names np rf w in
  fst run = match listing_fault w with
            | Some cls => Raised (Error cls)
            | None => Normal tt
            end /\
  listing_fault (snd run) = listing_fault w.
Proof.
  intros run. subst run.
  pose proof (create_topics_run names np rf w) as Hrun. cbv zeta in Hrun.
  rewrite Hrun.
  destruct (listing_fault w) as [cls|] eqn:Hfault; [now split|].
  destruct (missing _ _); [|destruct (authorized w)]; now split.
Qed.

(** The topic part of C1: a second run of [create_topics]. *)
Lemma create_topics_twice (names : list string) (np rf : Z) (w : world) :
  let w1 := snd (create_topics names np rf w) in
  let evs2 := events (create_topics names np rf) w1 in
  topics (snd (create_topics names np rf w1)) = topics w1 /\
  Forall (Forall (fun n => n ∉ topics w1)) (create_requests evs2) /\
  (if authorized w then create_requests evs2 = [] else True).
Proof.
  intros w1 evs2.
  destruct (create_topics_outcome names np rf w) as [_ Hfault1].
  cbv zeta in Hfault1. fold w1 in Hfault1.
  destruct (listing_fault w) as [cls|] eqn:Hfault.
  { pose proof (create_topics_stalled names np rf w1 cls Hfault1) as Hrun2.
    subst evs2.
    rewrite (events_add_events _ _ _ _ _ Hrun2 eq_refl), Hrun2.
    split; [reflexivity|]. split; [constructor|].
    now destruct (authorized w). }
  destruct (create_topics_effect names np rf w Hfault) as (_ & Hauth1 & Htopics1 & _).
  destruct (create_topics_effect names np rf w1 Hfault1)
    as (_ & _ & Htopics2 & Hreq2 & _).
  cbv zeta in *. fold w1 in Hauth1, Htopics1. fold evs2 in Hreq2.
  rewrite Hauth1 in Htopics2.
  split; [|split].
  - rewrite Htopics2. destruct (authorized w); [|reflexivity].
    rewrite Htopics1. now rewrite <- union_assoc_L, union_idemp_L.
  - rewrite Hreq2.
    destruct (missing (elements (topics w1)) names) as [|n l] eqn:Hm;
      constructor; [|constructor].
    rewrite <- Hm. apply Forall_forall. intros x Hx.
    apply missing_spec in Hx. tauto.
  - destruct (authorized w); [|exact I].
    rewrite Hreq2.
    assert (Hnil : missing (elements (topics w1)) names = []).
    { apply missing_nil, Forall_forall. intros x Hx.
      rewrite Htopics1. now apply elem_of_union_r, elem_of_list_to_set. }
    now rewrite Hnil.
Qed.

(** The topic part of C5: [delete_topics] never fails, and a second run
    after an authorized first one only warns. *)
Lemma delete_topics_twice (names : list string) (w : world) :
  authorized w = true ->
  let w1 := snd (delete_topics names w) in
  let evs2 := events (delete_topics names) w1 in
  fst (delete_topics names w) = Normal tt /\
  fst (delete_topics names w1) = Normal tt /\
  topics (snd (delete_topics names w1)) = topics w1 /\
  delete_requests evs2 = [names] /\
  logged ERROR evs2 = [] /\
  logged WARNING evs2
    = match names with
      | [] => []
      | _ => [TopicsDoNotExist UnknownTopicOrPartitionError]
      end.
Proof.
  intros Hauth w1 evs2.
  pose proof (delete_topics_run names w) as Hrun1. rewrite Hauth in Hrun1.
  assert (H1 : fst (delete_topics names w) = Normal tt /\
               authorized w1 = true /\
               topics w1 = topics w ∖ list_to_set names).
  { subst w1. rewrite Hrun1. destruct (bool_decide _); cbn; auto. }
  destruct H1 as (Hok1 & Hauth1 & Htopics1).
  pose proof (delete_topics_run names w1) as Hrun2. rewrite Hauth1 in Hrun2.
  assert (Hsame : topics w1 ∖ list_to_set names = topics w1).
  { rewrite Htopics1. apply set_eq. intros x.
    rewrite !elem_of_difference. tauto. }
  rewrite Hsame in Hrun2.
  split; [exact Hok1|]. subst evs2.
  destruct names as [|n names].
  - rewrite bool_decide_eq_false_2 in Hrun2 by (intros H; inversion H).
    rewrite (events_add_events _ _ _ _ _ Hrun2 eq_refl), Hrun2.
    repeat split; reflexivity.
  - rewrite bool_decide_eq_true_2 in Hrun2.
    2:{ constructor. rewrite Htopics1, elem_of_difference, elem_of_list_to_set.
        intros [_ Hn]. apply Hn. left. }
    rewrite (events_add_events _ _ _ _ _ Hrun2 eq_refl), Hrun2.
    repeat split; reflexivity.
Qed.

(** [delete_topics] on topics that do not exist. *)
Lemma delete_topics_absent (names : list string) (w : world) :
  authorized w = true ->
  Forall (fun n => n ∉ topics w) names ->
  fst (delete_topics names w) = Normal tt /\
  topics (snd (delete_topics names w)) = topics w /\
  logged ERROR (events (delete_topics names) w) = [].
Proof.
  intros Hauth Habsent.
  pose proof (delete_topics_run names w) as Hrun. rewrite Hauth in Hrun.
  assert (Hsame : topics w ∖ list_to_set names = topics w).
  { apply set_eq. intros x. rewrite elem_of_difference, elem_of_list_to_set.
    rewrite Forall_forall in Habsent. split; [tauto|].
    intros Hx. split; [exact Hx|]. intros Hin. now apply (Habsent x). }
  rewrite Hsame in Hrun.
  destruct (bool_decide _);
    rewrite (events_add_events _ _ _ _ _ Hrun eq_refl), Hrun;
    (split; [reflexivity|]); (split; [reflexivity|]).
  - reflexivity.
  - unfold logged. erewrite omap_skip by reflexivity. now rewrite omap_logs.
Qed.

(** The topic part of C7: the main module of manage_topics.py. *)
Lemma topics_main_exit_code (env : Env) (act : string) (w : world) :
  exit_code (fst (main env act w))
  = if forallb truthy [KAFKA_BOOTSTRAP_SERVERS env; KAFKA_USER env;
                       KAFKA_PASSWORD env]
    then 0%Z else 1%Z.
Proof.
  unfold main. destruct (forallb _ _); cbn [negb]; [|reflexivity].
  unfold try_finally, try_except, KafkaAdminClient, bind.
  rewrite emit_run. cbv beta iota.
  change (reachable (add_events _ (set_admin_client false w))) with (reachable w).
  destruct (reachable w).
  - destruct (String.eqb act "create").
    + pose proof (create_topics_outcome topics_of_main 1 1
                    (set_admin_client true
                       (add_events [NewAdminClient
                          (Text.split "," (default EmptyString (KAFKA_BOOTSTRAP_SERVERS env)))
                          (default EmptyString (KAFKA_USER env))
                          (default EmptyString (KAFKA_PASSWORD env))]
                          (set_admin_client false w)))) as (Hok & _).
      cbv zeta in Hok.
      destruct (create_topics _ _ _ _) as [r w'] eqn:Hrun. cbn [fst] in Hok.
      subst r. destruct (listing_fault _) as [cls|]; cbv beta iota.
      * rewrite log_run. cbn [fst snd].
        destruct (admin_client _); reflexivity.
      * destruct (admin_client w'); reflexivity.
    + pose proof (delete_topics_run topics_of_main
                    (set_admin_client true
                       (add_events [NewAdminClient
                          (Text.split "," (default EmptyString (KAFKA_BOOTSTRAP_SERVERS env)))
                          (default EmptyString (KAFKA_USER env))
                          (default EmptyString (KAFKA_PASSWORD env))]
                          (set_admin_client false w)))) as Hrun.
      destruct (delete_topics _ _) as [r w'].
      assert (Hok : r = Normal tt).
      { destruct (authorized _); [destruct (bool_decide _)|];
          now inversion Hrun. }
      subst r. cbv beta iota. destruct (admin_client w'); reflexivity.
  - reflexivity.
Qed.

Lemma topics_connectivity_failure (env : Env) (act : string) (w : world) :
  forallb truthy [KAFKA_BOOTSTRAP_SERVERS env; KAFKA_USER env;
                  KAFKA_PASSWORD env] = true ->
  reachable w = false ->
  let evs := events (main env act) w in
  fst (main env act w) = Normal tt /\
  logged ERROR evs = [AnErrorOccurred (Error "NoBrokersAvailable")] /\
  create_requests evs = [] /\
  delete_requests evs = [] /\
  topics (snd (main env act w)) = topics w.
Proof.
  intros Hcfg Hdown evs. subst evs.
  unfold events, main. rewrite Hcfg. cbn [negb].
  unfold try_finally, try_except, KafkaAdminClient, bind.
  rewrite emit_run. cbv beta iota.
  change (reachable (add_events _ (set_admin_client false w))) with (reachable w).
  rewrite Hdown. cbn [fst snd]. rewrite log_run.
  cbn [admin_client add_events set_admin_client fst snd].
  rewrite add_events_app, trace_add_events.
  change (trace (set_admin_client false w)) with (trace w).
  rewrite drop_app_length.
  repeat split; reflexivity.
Qed.

End TopicRuns.

(** ** The claims that involve both scripts, and the cleaning step *)

Section Claims.
Import Text.
Context {E : ManageDb.Engine}.

(** C6: the cleaning step of [up].  A line is dropped exactly when its
    first non-whitespace character is the backslash; the cleaned script is
    the remaining lines, unchanged and in their order, joined by newlines,
    which is the script with those lines removed by hand, so executing the
    one is executing the other.  Read back line by line, the cleaned script
    consists of exactly the remaining lines (of one empty line when none
    remains). *)
Theorem clean_sql_drops_meta_commands (script : string) (conn : nat) :
  let kept :=
    List.filter (fun line => negb (ManageDb.starts_with_escape_marker line))
      (split LF script) in
  (forall line,
     ManageDb.is_meta_command line = ManageDb.starts_with_escape_marker line) /\
  ManageDb.clean_sql script = join (String LF EmptyString) kept /\
  split LF (ManageDb.clean_sql script)
    = match kept with [] => [EmptyString] | _ => kept end /\
  ManageDb.execute conn (ManageDb.Str (ManageDb.clean_sql script))
    = ManageDb.execute conn (ManageDb.Str (join (String LF EmptyString) kept)).
Proof.
  intros kept.
  assert (Hline : forall line,
            ManageDb.is_meta_command line
            = ManageDb.starts_with_escape_marker line)
    by (intros line; apply startswith_strip).
  assert (Hclean : ManageDb.clean_sql script = join (String LF EmptyString) kept).
  { unfold ManageDb.clean_sql, kept. f_equal.
    apply List.filter_ext. intros line. now rewrite Hline. }
  split; [exact Hline|]. split; [exact Hclean|]. split.
  - rewrite Hclean. apply split_join.
    apply Forall_filter_bool, split_pieces_free.
  - now rewrite Hclean.
Qed.

(** C3: [create_topics] asks for the creation of exactly the desired names
    that do not exist.  The names to create are the desired names, in
    order, that are not among the existing ones; as a set they are the
    desired names minus the existing ones.  When the listing of the existing
    topics succeeds and there is no such name, the run logs that there is
    nothing to create and sends no create request; when there is one, it
    sends one create request, for exactly those names, each with the given
    partition count and replication factor.  The run then ends normally,
    and on a cluster that authorizes it the existing topics afterwards are
    the old ones and the desired ones.  When the listing fails there is no
    observed set of existing topics: the error of the listing leaves
    [create_topics], which has sent no create request and logged nothing,
    and the topics are as they were. *)
Theorem create_topics_requests_missing (names : list string) (np rf : Z)
    (w : ManageTopics.world) :
  let wanted :=
    List.filter (fun n => negb (bool_decide (n ∈ elements (ManageTopics.topics w))))
      names in
  let run := ManageTopics.create_topics names np rf w in
  let evs := ManageTopics.events (ManageTopics.create_topics names np rf) w in
  (list_to_set wanted : gset string)
    = list_to_set names ∖ ManageTopics.topics w /\
  match ManageTopics.listing_fault w with
  | Some cls =>
      fst run = Raised (Error cls) /\
      evs = [ManageTopics.ListTopics] /\
      ManageTopics.create_requests evs = [] /\
      ManageTopics.topics (snd run) = ManageTopics.topics w
  | None =>
      fst run = Normal tt /\
      ManageTopics.create_requests evs
        = match wanted with [] => [] | _ => [wanted] end /\
      match wanted with
      | [] =>
          ManageTopics.logged INFO evs = [ManageTopics.NoNewTopics] /\
          ManageTopics.topics (snd run) = ManageTopics.topics w
      | _ =>
          In (ManageTopics.CreateTopics
                ((fun n => {| ManageTopics.name := n;
                              ManageTopics.num_partitions := np;
                              ManageTopics.replication_factor := rf |}) <$> wanted)
                false) evs /\
          ManageTopics.topics (snd run)
            = if ManageTopics.authorized w
              then ManageTopics.topics w ∪ list_to_set names
              else ManageTopics.topics w
      end
  end.
Proof.
  intros wanted run evs.
  split.
  { apply set_eq. intros n.
    rewrite elem_of_list_to_set, elem_of_difference, elem_of_list_to_set.
    apply missing_spec. }
  destruct (ManageTopics.listing_fault w) as [cls|] eqn:Hfault.
  { pose proof (create_topics_stalled names np rf w cls Hfault) as Hrun.
    subst run evs.
    rewrite (events_add_events _ _ _ _ _ Hrun eq_refl), Hrun.
    repeat split; reflexivity. }
  destruct (create_topics_effect names np rf w Hfault)
    as (Hok & _ & Htopics & Hreq & Hev).
  cbv zeta in *.
  change (ManageTopics.missing (elements (ManageTopics.topics w)) names)
    with wanted in Hreq, Hev.
  fold run in Hok, Htopics. fold evs in Hreq, Hev.
  split; [exact Hok|]. split; [exact Hreq|].
  destruct wanted as [|n l] eqn:Hw; (split; [exact Hev|]); [|exact Htopics].
  rewrite Htopics. destruct (ManageTopics.authorized w); [|reflexivity].
  rewrite <- (missing_set (ManageTopics.topics w) names).
  change (ManageTopics.missing (elements (ManageTopics.topics w)) names)
    with wanted.
  rewrite Hw. cbn. apply union_empty_r_L.
Qed.

(** C1, as the code has it.  For the topic tool, a second run of
    [create_topics] leaves the existing topics as the first run left them
    and asks for the creation of no topic that exists after the first run
    (of no topic at all on a cluster that authorized the first run).  For
    the database tool, after a run of [up] that ended normally a second run
    sends CREATE DATABASE again and executes the cleaned script again; the
    server answers the former with DuplicateDatabase, which is logged as a
    skipped creation, and the set of existing databases is the same after
    the second run as after the first. *)
Theorem create_twice (args : ManageDb.Args) (w : ManageDb.world)
    (names : list string) (np rf : Z) (k : ManageTopics.world) :
  fst (ManageDb.up args w) = Normal tt ->
  let k1 := snd (ManageTopics.create_topics names np rf k) in
  let requests2 :=
    ManageTopics.create_requests
      (ManageTopics.events (ManageTopics.create_topics names np rf) k1) in
  let w1 := snd (ManageDb.up args w) in
  let evs2 := ManageDb.events (ManageDb.up args) w1 in
  (ManageTopics.topics (snd (ManageTopics.create_topics names np rf k1))
     = ManageTopics.topics k1 /\
   Forall (Forall (fun n => n ∉ ManageTopics.topics k1)) requests2 /\
   (if ManageTopics.authorized k then requests2 = [] else True)) /\
  (ManageDb.executed evs2
     = [ManageDb.create_database_query (ManageDb.dbname args);
        ManageDb.Str
          (ManageDb.clean_sql (default EmptyString (ManageDb.sql_file w)))] /\
   In (ManageDb.DatabaseAlreadyExists (ManageDb.dbname args))
      (ManageDb.logged INFO evs2) /\
   dom (ManageDb.databases (snd (ManageDb.up args w1)))
     = dom (ManageDb.databases w1)).
Proof.
  intros Hok k1 requests2 w1 evs2. split.
  - apply create_topics_twice.
  - now apply up_second_run.
Qed.

(** C5, as the code has it: teardown tolerates what is already gone, and
    only the topic tool warns about it.  [down] run twice for a name the
    server reads as it is written, on a server that lets the first run drop
    the database, ends normally both times: the second run sends the same
    DROP DATABASE IF EXISTS, changes nothing, and logs what the first run
    logged, the last record being that the database was dropped; it logs no
    warning and no error.  [delete_topics] run twice on a cluster that
    authorizes it ends normally both times: the second run sends the whole
    list again, changes nothing and logs the unknown-topic error as a
    warning, not as an error. *)
Theorem teardown_twice (args : ManageDb.Args) (w : ManageDb.world)
    (names : list string) (k : ManageTopics.world) :
  ManageDb.valid_name (ManageDb.dbname args) = true ->
  ManageDb.accepts "postgres" w = true ->
  ManageDb.drop_fault w = None ->
  ManageDb.dbname args <> "postgres" ->
  ManageTopics.authorized k = true ->
  let w1 := snd (ManageDb.down args w) in
  let evs2 := ManageDb.events (ManageDb.down args) w1 in
  let k1 := snd (ManageTopics.delete_topics names k) in
  let kevs2 := ManageTopics.events (ManageTopics.delete_topics names) k1 in
  (fst (ManageDb.down args w) = Normal tt /\
   ManageDb.databases w1 !! ManageDb.dbname args = None /\
   fst (ManageDb.down args w1) = Normal tt /\
   ManageDb.databases (snd (ManageDb.down args w1)) = ManageDb.databases w1 /\
   ManageDb.executed evs2
     = [ManageDb.drop_database_query (ManageDb.dbname args)] /\
   ManageDb.logged WARNING evs2 = [] /\
   ManageDb.logged ERROR evs2 = [] /\
   ManageDb.logged INFO evs2
     = [ManageDb.DroppingDatabase (ManageDb.dbname args);
        ManageDb.Executing
          (ManageDb.query_text
             (ManageDb.drop_database_query (ManageDb.dbname args)));
        ManageDb.DatabaseDropped (ManageDb.dbname args)]) /\
  (fst (ManageTopics.delete_topics names k) = Normal tt /\
   fst (ManageTopics.delete_topics names k1) = Normal tt /\
   ManageTopics.topics (snd (ManageTopics.delete_topics names k1))
     = ManageTopics.topics k1 /\
   ManageTopics.delete_requests kevs2 = [names] /\
   ManageTopics.logged ERROR kevs2 = [] /\
   ManageTopics.logged WARNING kevs2
     = match names with
       | [] => []
       | _ => [ManageTopics.TopicsDoNotExist UnknownTopicOrPartitionError]
       end).
Proof.
  intros Hv Ha Hf Hne Hauth w1 evs2 k1 kevs2. split.
  - now apply down_twice.
  - now apply delete_topics_twice.
Qed.

(** C7, as the code has it.  The database tool, on a server that cannot be
    reached, ends by [sys.exit(1)] after a single connection attempt: it
    logs the failure, connects once and executes nothing.  Its exit status
    is 0 exactly when the record that closes a successful [up] or [down]
    was logged, and 1 otherwise.  The topic tool raises ValueError (exit
    status 1) when its configuration is incomplete and ends with exit
    status 0 on every other run, whatever happened on the cluster; when
    no broker can be reached it logs the error, sends no request, and
    ends normally. *)
Theorem exit_statuses (args : ManageDb.Args) (w_down w : ManageDb.world)
    (env configured : ManageTopics.Env) (act : string)
    (k k_down : ManageTopics.world) :
  ManageDb.reachable w_down = false ->
  forallb ManageTopics.truthy
    [ManageTopics.KAFKA_BOOTSTRAP_SERVERS configured;
     ManageTopics.KAFKA_USER configured;
     ManageTopics.KAFKA_PASSWORD configured] = true ->
  ManageTopics.reachable k_down = false ->
  let evs_down := ManageDb.events (ManageDb.main args) w_down in
  let kevs_down :=
    ManageTopics.events (ManageTopics.main configured act) k_down in
  (exit_code (fst (ManageDb.main args w_down)) = 1%Z /\
   ManageDb.connected evs_down = ["postgres"] /\
   ManageDb.executed evs_down = [] /\
   ManageDb.logged ERROR evs_down
     = [ManageDb.CouldNotConnect "postgres" OperationalError;
        ManageDb.CheckConnectionDetails]) /\
  exit_code (fst (ManageDb.main args w))
    = (if ManageDb.completed (ManageDb.events (ManageDb.main args) w)
       then 0%Z else 1%Z) /\
  exit_code (fst (ManageTopics.main env act k))
    = (if forallb ManageTopics.truthy
            [ManageTopics.KAFKA_BOOTSTRAP_SERVERS env;
             ManageTopics.KAFKA_USER env; ManageTopics.KAFKA_PASSWORD env]
       then 0%Z else 1%Z) /\
  (exit_code (fst (ManageTopics.main configured act k_down)) = 0%Z /\
   ManageTopics.logged ERROR kevs_down
     = [ManageTopics.AnErrorOccurred (Error "NoBrokersAvailable")] /\
   ManageTopics.create_requests kevs_down = [] /\
   ManageTopics.delete_requests kevs_down = []).
Proof.
  intros Hdown Hcfg Hkdown evs_down kevs_down.
  destruct (db_connectivity_failure args w_down Hdown) as (Hexit & Hc & Hx & Hl).
  destruct (topics_connectivity_failure configured act k_down Hcfg Hkdown)
    as (Hkexit & Hkl & Hkc & Hkd & _).
  split; [|split; [|split]].
  - rewrite Hexit. auto.
  - apply db_exit_code.
  - apply topics_main_exit_code.
  - rewrite Hkexit. auto.
Qed.

End Claims.

(** ** The sample inputs: witnesses and counterexamples *)

Section Instances.
Import ManageDb.

#[local] Existing Instance Sample.journal.

(** The scenario of the specification for [create_topics]: the desired
    topics are orders and inventory, orders exists. *)
Example create_topics_scenario :
  let run := ManageTopics.create_topics ["orders"; "inventory"] 1 1 Sample.cluster in
  ManageTopics.listing_fault Sample.cluster = None /\
  fst run = Normal tt /\
  ManageTopics.create_requests (ManageTopics.trace (snd run)) = [["inventory"]] /\
  ManageTopics.topics (snd run) = {[ "orders"; "inventory" ]}.
Proof.
  split; [reflexivity|]. split; [reflexivity|]. split; [reflexivity|].
  apply set_eq. intros n. vm_compute. tauto.
Qed.

(** A failing script leaves the created target empty. *)
Example up_rolls_back_failing_script :
  let run := up Sample.args (Sample.server (Some Sample.failing_script)) in
  fst run = SysExit 1 /\
  databases (snd run) !! "ecommerce" = Some [] /\
  rollbacks (trace (snd run)) = 1.
Proof. repeat split; reflexivity. Qed.

(** The server refuses the empty name: [down] logs the syntax error and
    ends by [sys.exit(1)]. *)
Example down_of_empty_name :
  let run := down Sample.args_empty Sample.server_with_target in
  valid_name (dbname Sample.args_empty) = false /\
  parse (query_text (drop_database_query EmptyString)) = Rejected "SyntaxError" /\
  fst run = SysExit 1 /\
  logged ERROR (trace (snd run)) = [DownFailed (Error "SyntaxError")] /\
  databases (snd run) = databases Sample.server_with_target.
Proof. repeat split; reflexivity. Qed.

(** The server cuts a name of 70 bytes to its first 63: the first step of
    [up] creates the database of the shorter name, and [down] drops it. *)
Example long_name_is_cut :
  let created := up_ensure_database Sample.args_long (Sample.server None) in
  let dropped := down Sample.args_long Sample.server_with_name63 in
  valid_name Sample.name70 = false /\
  valid_name Sample.name63 = true /\
  server_reads Sample.name70 = Some Sample.name63 /\
  parse (query_text (create_database_query Sample.name70))
    = CreateDatabase Sample.name63 /\
  fst created = Normal tt /\
  databases (snd created) !! Sample.name63 = Some [] /\
  databases (snd created) !! Sample.name70 = None /\
  fst dropped = Normal tt /\
  databases (snd dropped) !! Sample.name63 = None.
Proof. repeat split; vm_compute; reflexivity. Qed.

(** When the listing of the topics fails, the error leaves
    [create_topics]; the main module logs it, closes the client and ends
    normally. *)
Example create_topics_when_listing_fails :
  let run := ManageTopics.create_topics ["orders"; "inventory"] 1 1
               Sample.cluster_stalled in
  let whole := ManageTopics.main Sample.env "create" Sample.cluster_stalled in
  fst run = Raised (Error "KafkaTimeoutError") /\
  ManageTopics.trace (snd run) = [ManageTopics.ListTopics] /\
  fst whole = Normal tt /\
  ManageTopics.logged ERROR (ManageTopics.trace (snd whole))
    = [ManageTopics.AnErrorOccurred (Error "KafkaTimeoutError")] /\
  ManageTopics.client_closes (ManageTopics.trace (snd whole)) = 1.
Proof. repeat split; reflexivity. Qed.

(** [up_applies_schema_atomically] on the sample server, where the script
    succeeds. *)
Lemma up_applies_schema_atomically_witness :
  let w := Sample.server (Some Sample.script) in
  let evs := events (up Sample.args) w in
  (valid_name (dbname Sample.args) = true /\
   accepts "postgres" w = true /\
   create_fault w = None /\
   sql_file w = Some Sample.script) /\
  fst (up Sample.args w) = Normal tt /\
  databases (snd (up Sample.args w))
    = <["ecommerce" := ["INSERT INTO products VALUES (1);"]]> (databases w) /\
  commits evs = 1 /\ rollbacks evs = 0 /\ logged ERROR evs = [].
Proof.
  split; [repeat split|].
  exact (proj2 (up_applies_schema_atomically Sample.args
                  (Sample.server (Some Sample.script)) Sample.script
                  eq_refl eq_refl eq_refl eq_refl)).
Defined.

(** [up_create_database_failure] on the sample server that already has the
    target: the duplicate is skipped and the run goes on. *)
Lemma up_create_database_failure_witness :
  let w := Sample.server_with_target in
  let step1 := up_ensure_database Sample.args w in
  let evs1 := events (up_ensure_database Sample.args) w in
  let evs := events (up Sample.args) w in
  (valid_name (dbname Sample.args) = true /\
   accepts "postgres" w = true) /\
  fst step1 = Normal tt /\
  logged INFO evs1
    = [EnsuringDatabase "ecommerce"; DatabaseAlreadyExists "ecommerce"] /\
  logged ERROR evs1 = [] /\
  databases (snd step1) = databases w /\
  up Sample.args w = up_apply_schema Sample.args (snd step1) /\
  In (ApplyingSchema "ecommerce") (logged INFO evs) /\
  file_reads evs = 1 /\
  connected evs = ["postgres"; "ecommerce"] /\
  executed evs
    = [create_database_query "ecommerce"; Str (clean_sql Sample.script)] /\
  commits evs + rollbacks evs = 1.
Proof.
  split; [split; reflexivity|].
  exact (up_create_database_failure Sample.args Sample.server_with_target
           eq_refl eq_refl).
Defined.

(** [up_creates_without_lookup] on the sample server that already has the
    target. *)
Lemma up_creates_without_lookup_witness :
  let w := Sample.server_with_target in
  let evs1 := events (up_ensure_database Sample.args) w in
  accepts "postgres" w = true /\
  connected evs1 = ["postgres"] /\
  executed evs1 = [create_database_query "ecommerce"].
Proof.
  split; [reflexivity|].
  pose proof (up_creates_without_lookup Sample.args Sample.server_with_target
                eq_refl) as (Hc & Hx & _).
  exact (conj Hc Hx).
Defined.

(** [up_failure_keeps_created_database] on the sample server with the
    failing script. *)
Lemma up_failure_keeps_created_database_witness :
  let w := Sample.server (Some Sample.failing_script) in
  (accepts "postgres" w = true /\
   create_fault w = None /\
   databases w !! "ecommerce" = None /\
   fst (up Sample.args w) <> Normal tt /\
   valid_name (dbname Sample.args) = true) /\
  exit_code (fst (up Sample.args w)) = 1%Z /\
  databases (snd (up Sample.args w)) = <["ecommerce" := []]> (databases w).
Proof.
  assert (Hfail : fst (up Sample.args (Sample.server (Some Sample.failing_script)))
                  <> Normal tt) by (vm_compute; discriminate).
  split; [repeat split; exact Hfail|].
  pose proof (up_failure_keeps_created_database Sample.args
                (Sample.server (Some Sample.failing_script))
                eq_refl eq_refl eq_refl eq_refl Hfail) as (Hexit & Hdbs & _).
  exact (conj Hexit Hdbs).
Defined.

(** [create_twice] on the sample server and cluster. *)
Lemma create_twice_witness :
  let w := Sample.server (Some Sample.script) in
  let w1 := snd (up Sample.args w) in
  fst (up Sample.args w) = Normal tt /\
  executed (events (up Sample.args) w1)
    = [create_database_query "ecommerce"; Str (clean_sql Sample.script)] /\
  dom (databases (snd (up Sample.args w1))) = dom (databases w1).
Proof.
  split; [reflexivity|].
  pose proof (create_twice Sample.args (Sample.server (Some Sample.script))
                ["orders"; "inventory"] 1 1 Sample.cluster eq_refl)
    as (_ & Hx & _ & Hd).
  exact (conj Hx Hd).
Defined.

(** [teardown_twice] on the sample server and cluster. *)
Lemma teardown_twice_witness :
  let w := Sample.server_with_target in
  let w1 := snd (down Sample.args w) in
  let k := Sample.cluster in
  let k1 := snd (ManageTopics.delete_topics ["orders"] k) in
  (valid_name (dbname Sample.args) = true /\
   accepts "postgres" w = true /\
   drop_fault w = None /\
   dbname Sample.args <> "postgres" /\
   ManageTopics.authorized k = true) /\
  fst (down Sample.args w1) = Normal tt /\
  logged WARNING (events (down Sample.args) w1) = [] /\
  fst (ManageTopics.delete_topics ["orders"] k1) = Normal tt.
Proof.
  assert (Hne : dbname Sample.args <> "postgres") by discriminate.
  split; [repeat split; exact Hne|].
  pose proof (teardown_twice Sample.args Sample.server_with_target ["orders"]
                Sample.cluster eq_refl eq_refl eq_refl Hne eq_refl)
    as ((_ & _ & Hdb & _ & _ & Hwarn & _) & (_ & Hk & _)).
  exact (conj Hdb (conj Hwarn Hk)).
Defined.

(** [exit_statuses] on the sample server and cluster that do not answer. *)
Lemma exit_statuses_witness :
  let evs := events (main Sample.args) Sample.server_down in
  (reachable Sample.server_down = false /\
   forallb ManageTopics.truthy
     [ManageTopics.KAFKA_BOOTSTRAP_SERVERS Sample.env;
      ManageTopics.KAFKA_USER Sample.env;
      ManageTopics.KAFKA_PASSWORD Sample.env] = true /\
   ManageTopics.reachable Sample.cluster_down = false) /\
  exit_code (fst (main Sample.args Sample.server_down)) = 1%Z /\
  connected evs = ["postgres"] /\
  executed evs = [] /\
  exit_code (fst (ManageTopics.main Sample.env "create" Sample.cluster_down))
    = 0%Z.
Proof.
  split; [repeat split|].
  pose proof (exit_statuses Sample.args Sample.server_down
                Sample.server_with_target Sample.env Sample.env "create"
                Sample.cluster Sample.cluster_down eq_refl eq_refl eq_refl)
    as ((Hexit & Hc & Hx & _) & _ & _ & (Hk & _)).
  exact (conj Hexit (conj Hc (conj Hx Hk))).
Defined.

(** C1 as stated fails for the database tool: on the sample server a
    second run of [up] sends CREATE DATABASE for the database the first run
    created and executes the script again, and the target does not hold
    after the second run what it held after the first. *)
Lemma up_twice_counterexample :
  let w := Sample.server (Some Sample.script) in
  let w1 := snd (up Sample.args w) in
  let w2 := snd (up Sample.args w1) in
  fst (up Sample.args w) = Normal tt /\
  is_Some (databases w1 !! "ecommerce") /\
  executed (events (up Sample.args) w1)
    = [create_database_query "ecommerce"; Str (clean_sql Sample.script)] /\
  databases w2 !! "ecommerce" <> databases w1 !! "ecommerce" /\
  ~ (databases w2 = databases w1 /\ executed (events (up Sample.args) w1) = []).
Proof.
  cbv zeta. split; [reflexivity|]. split; [vm_compute; eauto|].
  split; [reflexivity|]. split; [vm_compute; discriminate|].
  intros [_ H]. vm_compute in H. discriminate H.
Qed.

(** C5 as stated fails for the database tool: on the sample server the
    second run of [down], which finds no database to drop, ends normally
    like the first, logs no warning at all, and logs that the database was
    dropped. *)
Lemma down_twice_counterexample :
  let w := Sample.server_with_target in
  let w1 := snd (down Sample.args w) in
  let evs2 := events (down Sample.args) w1 in
  fst (down Sample.args w) = Normal tt /\
  databases w1 !! "ecommerce" = None /\
  fst (down Sample.args w1) = Normal tt /\
  logged WARNING evs2 = [] /\
  logged INFO evs2
    = [DroppingDatabase "ecommerce";
       Executing (query_text (drop_database_query "ecommerce"));
       DatabaseDropped "ecommerce"] /\
  ~ (exists msg, In msg (logged WARNING evs2)).
Proof.
  cbv zeta. split; [reflexivity|]. split; [vm_compute; reflexivity|].
  split; [reflexivity|]. split; [vm_compute; reflexivity|].
  split; [vm_compute; reflexivity|].
  intros [msg H]. vm_compute in H. exact H.
Qed.

(** C7 as stated fails for the topic tool: when no broker can be reached
    the failure is logged and the process ends with exit status 0. *)
Lemma topics_unreachable_counterexample :
  let run := ManageTopics.main Sample.env "create" Sample.cluster_down in
  ManageTopics.reachable Sample.cluster_down = false /\
  ManageTopics.logged ERROR (ManageTopics.trace (snd run))
    = [ManageTopics.AnErrorOccurred (Error "NoBrokersAvailable")] /\
  exit_code (fst run) = 0%Z /\
  ~ (exit_code (fst run) <> 0%Z).
Proof.
  cbv zeta. split; [reflexivity|]. split; [reflexivity|].
  split; [reflexivity|]. intros H. apply H. reflexivity.
Qed.

(** C8 as stated fails: on a server where the target exists, [up] still
    sends CREATE DATABASE, and it is the first and only statement on the
    administrative connection. *)
Lemma up_existing_target_counterexample :
  let w := Sample.server_with_target in
  is_Some (databases w !! dbname Sample.args) /\
  executed (events (up_ensure_database Sample.args) w)
    = [create_database_query (dbname Sample.args)] /\
  ~ (is_Some (databases w !! dbname Sample.args) ->
     ~ In (create_database_query (dbname Sample.args))
          (executed (events (up Sample.args) w))).
Proof.
  cbv zeta. split; [vm_compute; eauto|]. split; [reflexivity|].
  intros H. apply H; [vm_compute; eauto|]. vm_compute. left. reflexivity.
Qed.

End Instances.

(** * Part III: further properties of the two scripts *)

(** ** The cleaning step of [up] *)

Section CleaningFacts.
Import Text ManageDb.

Lemma concat_cons (sep piece piece' : string) (rest : list string) :
  String.concat sep (piece :: piece' :: rest)
  = piece +:+ sep +:+ String.concat sep (piece' :: rest).
Proof. reflexivity. Qed.

(** Splitting on a character and joining on it again gives the string
    back. *)
Lemma join_split (sep : ascii) (s : string) :
  join (String sep EmptyString) (split sep s) = s.
Proof.
  unfold join. induction s as [|c s IH]; [reflexivity|].
  cbn [split]. destruct (Ascii.eqb c sep) eqn:Hc.
  - apply Ascii.eqb_eq in Hc. subst c.
    destruct (split_cons_inv sep s) as (piece & rest & Hs).
    rewrite Hs in *. rewrite concat_cons, IH. reflexivity.
  - destruct (split sep s) as [|piece rest]; [now inversion IH|].
    destruct rest as [|piece' rest].
    + cbn in *. now rewrite IH.
    + rewrite concat_cons in *. rewrite append_cons, IH. reflexivity.
Qed.

Lemma filter_all {A} (f : A -> bool) (l : list A) :
  Forall (fun x => f x = true) l -> List.filter f l = l.
Proof.
  induction 1 as [|x l Hx Hl IH]; [reflexivity|].
  cbn. now rewrite Hx, IH.
Qed.

Lemma filter_kept {A} (f : A -> bool) (l : list A) :
  Forall (fun x => f x = true) (List.filter f l).
Proof.
  induction l as [|x l IH]; [constructor|].
  cbn. destruct (f x) eqn:Hx; [constructor|]; assumption.
Qed.

(** The lines of a cleaned script. *)
Lemma clean_sql_lines (script : string) :
  split LF (clean_sql script)
  = match List.filter (fun line => negb (is_meta_command line)) (split LF script) with
    | [] => [EmptyString]
    | kept => kept
    end.
Proof.
  unfold clean_sql. rewrite split_join.
  - now destruct (List.filter _ _).
  - apply Forall_filter_bool, split_pieces_free.
Qed.

(** X10: a script in which no line is a psql meta-command goes through the
    cleaning step of [up] unchanged, character for character. *)
Theorem clean_sql_keeps_plain_script (script : string) :
  Forall (fun line => is_meta_command line = false) (split LF script) ->
  clean_sql script = script.
Proof.
  intros Hplain. unfold clean_sql. rewrite filter_all.
  - apply join_split.
  - eapply Forall_impl; [exact Hplain|]. cbn. intros line H. now rewrite H.
Qed.

(** X9: the cleaning step of [up] leaves no psql meta-command behind, and
    cleaning twice is cleaning once: no line of a cleaned script starts,
    once stripped, with a backslash, and a cleaned script is a fixed point
    of the cleaning. *)
Theorem clean_sql_is_clean (script : string) :
  Forall (fun line => is_meta_command line = false)
    (split LF (clean_sql script)) /\
  clean_sql (clean_sql script) = clean_sql script.
Proof.
  assert (Hlines : Forall (fun line => is_meta_command line = false)
                     (split LF (clean_sql script))).
  { rewrite clean_sql_lines.
    pose proof (filter_kept (fun line => negb (is_meta_command line))
                  (split LF script)) as Hkept.
    destruct (List.filter _ _) as [|line kept].
    - constructor; [reflexivity | constructor].
    - eapply Forall_impl; [exact Hkept|]. cbn. intros l H.
      now apply negb_true_iff in H. }
  split; [exact Hlines|].
  unfold clean_sql at 1. rewrite filter_all.
  - apply join_split.
  - eapply Forall_impl; [exact Hlines|]. cbn. intros line H. now rewrite H.
Qed.

End CleaningFacts.

(** ** Further runs of manage_db.py *)

Section DbExtras.
Import Text ManageDb.
Context {E : Engine}.

#[local] Arguments parse : simpl never.
#[local] Arguments clean_sql : simpl never.
#[local] Arguments txn_effect : simpl never.
#[local] Arguments create_database_query : simpl never.
#[local] Arguments drop_database_query : simpl never.
#[local] Arguments server_reads : simpl never.
#[local] Arguments truncate_identifier : simpl never.

Lemma settled_refl (ss : gmap nat session) : settled ss ss.
Proof. intros conn s H. now left. Qed.

Lemma settled_closed (ss0 ss : gmap nat session) (conn : nat) (db : string)
    (auto : bool) :
  settled ss0 ss -> settled ss0 (<[conn := closed_session db auto]> ss).
Proof.
  intros H h s. rewrite lookup_insert. case_decide.
  - intros [= <-]. right. split; reflexivity.
  - apply H.
Qed.

(** The shape of the world a run of [up] leaves, whatever path it took. *)
Lemma up_shape (args : Args) (w : world) :
  exists r evs dbs ss,
    up args w = (r, after evs dbs ss w) /\
    dom (databases w) ⊆ dom dbs /\
    settled (sessions w) ss.
Proof.
  assert (Hins : forall (k : string) (c : schema) (dbs : gmap string schema),
             dom (databases w) ⊆ dom dbs ->
             dom (databases w) ⊆ dom (<[k := c]> dbs)).
  { intros k c dbs H. etransitivity; [exact H|]. apply dom_insert_subseteq. }
  rewrite up_steps, up_ensure_database_run.
  destruct (accepts "postgres" w).
  2:{ eexists _, _, _, _. split; [reflexivity|].
      split; [reflexivity | apply settled_refl]. }
  destruct (server_reads (dbname args)) as [stored|].
  2:{ eexists _, _, _, _. split; [reflexivity|].
      split; [reflexivity | apply settled_closed, settled_refl]. }
  destruct (create_fault w).
  { eexists _, _, _, _. split; [reflexivity|].
    split; [reflexivity | apply settled_closed, settled_refl]. }
  destruct (databases w !! stored) as [contents|] eqn:Htarget;
    rewrite up_apply_schema_run;
    cbn [sql_file reachable databases sessions after];
    (destruct (sql_file w);
     [|rewrite after_after; eexists _, _, _, _; split; [reflexivity|];
       split; [auto | apply settled_closed, settled_refl]]);
    (destruct (reachable w);
     [|rewrite after_after; eexists _, _, _, _; split; [reflexivity|];
       split; [auto | apply settled_closed, settled_refl]]);
    (destruct (_ !! dbname args);
     [destruct (txn_effect _ _)|]); rewrite after_after;
    eexists _, _, _, _; (split; [reflexivity|]);
    (split; [auto 6 | repeat apply settled_closed; apply settled_refl]).
Qed.

(** The shape of the world a run of [down] leaves. *)
Lemma down_shape (args : Args) (w : world) :
  exists r evs dbs ss,
    down args w = (r, after evs dbs ss w) /\
    ((r <> Normal tt /\ dbs = databases w) \/
     (r = Normal tt /\
      dbs = delete (truncate_identifier (dbname args)) (databases w))) /\
    settled (sessions w) ss.
Proof.
  rewrite down_run.
  destruct (accepts "postgres" w).
  2:{ eexists _, _, _, _. split; [reflexivity|].
      split; [left; split; [discriminate | reflexivity] | apply settled_refl]. }
  unfold server_reads.
  destruct (dbname args) as [|c name] eqn:Hname.
  { eexists _, _, _, _. split; [reflexivity|].
    split; [left; split; [discriminate | reflexivity]
           | apply settled_closed, settled_refl]. }
  destruct (databases w !! truncate_identifier (String c name))
    as [contents|] eqn:Htarget.
  2:{ eexists _, _, _, _. split; [reflexivity|].
      split; [right; split; [reflexivity | symmetry; now apply delete_id]
             | apply settled_closed, settled_refl]. }
  destruct (bool_decide _); [|destruct (drop_fault w)];
    eexists _, _, _, _; (split; [reflexivity|]);
    (split; [|apply settled_closed, settled_refl]);
    try (left; split; [discriminate | reflexivity]).
  right. split; reflexivity.
Qed.

(** A name the server reads as it is written is not cut. *)
Lemma truncate_identifier_valid (name : string) :
  valid_name name = true -> truncate_identifier name = name.
Proof.
  intros Hv. pose proof (server_reads_valid _ Hv) as H.
  unfold server_reads in H. destruct name; [discriminate|]. congruence.
Qed.


(** X1: [get_connection] makes exactly one connection attempt, to the
    override when it is given and not empty and to the database of the
    arguments otherwise.  When the server accepts it, the result is a new
    connection to that database, open, with autocommit off and no
    transaction, the connections that existed are untouched and nothing is
    logged; when it does not, the two error records are logged, the call
    ends by [sys.exit(1)] and no connection is left.  The databases are
    untouched either way. *)
Theorem get_connection_outcome (args : Args) (db_override : option string)
    (w : world) :
  let db := match db_override with
            | Some (String c o) => String c o
            | _ => dbname args
            end in
  let run := get_connection args db_override w in
  let evs := events (get_connection args db_override) w in
  connected evs = [db] /\
  databases (snd run) = databases w /\
  if accepts db w then
    exists conn,
      fst run = Normal conn /\
      sessions w !! conn = None /\
      sessions (snd run)
        = <[conn := {| sess_dbname := db; sess_autocommit := false;
                       sess_txn := Idle; sess_closed := false |}]> (sessions w) /\
      logged ERROR evs = []
  else
    fst run = SysExit 1 /\
    sessions (snd run) = sessions w /\
    logged ERROR evs = [CouldNotConnect db OperationalError; CheckConnectionDetails].
Proof.
  intros db run evs. subst run evs.
  assert (Hdb : (if truthy db_override then default EmptyString db_override
                 else dbname args) = db)
    by (destruct db_override as [[|c o]|]; reflexivity).
  unfold events, get_connection, try_except, connect, bind, log, sys_exit,
    accepts.
  rewrite Hdb. clearbody db. destruct w as [r cf df dbs ss file tr].
  cbn [emit reachable databases sessions trace fst snd].
  destruct (andb _ _); cbn.
  - rewrite drop_app_length. repeat split.
    eexists. split; [reflexivity|]. split; [|split; reflexivity].
    apply not_elem_of_dom, is_fresh.
  - rewrite <- !app_assoc, drop_app_length. repeat split.
Qed.

(** X2: when the SQL file is missing, [up] stops after its first step: for
    a name the server reads as it is written, it logs that the file was not
    found and ends by [sys.exit(1)] without connecting to the target
    database and without executing anything but CREATE DATABASE; the
    databases are as the first step left them. *)
Theorem up_without_sql_file (args : Args) (w : world) :
  valid_name (dbname args) = true ->
  accepts "postgres" w = true ->
  create_fault w = None ->
  sql_file w = None ->
  let evs := events (up args) w in
  fst (up args w) = SysExit 1 /\
  logged ERROR evs = [SqlFileNotFound] /\
  connected evs = ["postgres"] /\
  executed evs = [create_database_query (dbname args)] /\
  file_reads evs = 1 /\
  commits evs = 0 /\
  databases (snd (up args w)) = ensured (dbname args) (databases w).
Proof.
  intros Hv Ha Hf Hs evs. subst evs.
  pose proof (up_run_without_file args w Hv Ha Hf Hs) as Hrun.
  cbv zeta in Hrun.
  rewrite (events_after _ _ _ _ _ _ Hrun), Hrun.
  destruct (databases w !! dbname args); repeat split.
Qed.

(** X3: neither [up] nor [down] leaves a connection behind.  After a run
    of the tool, on whatever path it ended, every connection of the server
    is one that was there before the run, untouched, or is closed with no
    transaction open. *)
Theorem main_closes_its_connections (args : Args) (w : world) :
  settled (sessions w) (sessions (snd (main args w))).
Proof.
  unfold main. destruct (String.eqb (action args) "up").
  - destruct (up_shape args w) as (r & evs & dbs & ss & Hrun & _ & Hss).
    now rewrite Hrun.
  - destruct (down_shape args w) as (r & evs & dbs & ss & Hrun & _ & Hss).
    now rewrite Hrun.
Qed.

(** X5: [up] never removes a database and [down] never adds one. *)
Theorem up_keeps_down_adds_nothing (args : Args) (w : world) :
  dom (databases w) ⊆ dom (databases (snd (up args w))) /\
  dom (databases (snd (down args w))) ⊆ dom (databases w).
Proof.
  split.
  - destruct (up_shape args w) as (r & evs & dbs & ss & Hrun & Hdom & _).
    now rewrite Hrun.
  - destruct (down_shape args w)
      as (r & evs & dbs & ss & Hrun & [[_ ->]|[_ ->]] & _);
      rewrite Hrun; cbn [snd after databases]; [reflexivity|].
    rewrite dom_delete_L. apply subseteq_difference_l. reflexivity.
Qed.

(** X6: [down] only ever talks to the database named postgres and sends
    at most its one DROP DATABASE IF EXISTS statement there; it never
    opens the SQL file, commits or rolls back.  When it ends normally the
    database the server reads the target name as is gone, which is the
    target itself unless its name is too long for the server; on every
    other path the exit status is 1 and the databases are as they were. *)
Theorem down_outcome (args : Args) (w : world) :
  let evs := events (down args) w in
  connected evs = ["postgres"] /\
  executed evs
    = (if accepts "postgres" w then [drop_database_query (dbname args)] else []) /\
  file_reads evs = 0 /\ commits evs = 0 /\ rollbacks evs = 0 /\
  (if valid_name (dbname args)
   then truncate_identifier (dbname args) = dbname args
   else True) /\
  match fst (down args w) with
  | Normal _ =>
      databases (snd (down args w))
      = delete (truncate_identifier (dbname args)) (databases w)
  | r => exit_code r = 1%Z /\ databases (snd (down args w)) = databases w
  end.
Proof.
  intros evs. subst evs.
  assert (Hcut : if valid_name (dbname args)
                 then truncate_identifier (dbname args) = dbname args
                 else True).
  { destruct (valid_name (dbname args)) eqn:Hv; [|exact I].
    now apply truncate_identifier_valid. }
  pose proof (down_run args w) as Hrun. cbv zeta in Hrun.
  unfold server_reads in Hrun.
  destruct (accepts "postgres" w);
    [destruct (dbname args) as [|c name] eqn:Hname;
       [|destruct (databases w !! truncate_identifier (String c name)) eqn:Htarget;
         [destruct (bool_decide _); [|destruct (drop_fault w)]|]]|];
    rewrite (events_after _ _ _ _ _ _ Hrun), Hrun;
    (split; [reflexivity|]); (split; [reflexivity|]); (split; [reflexivity|]);
    (split; [reflexivity|]); (split; [reflexivity|]); (split; [exact Hcut|]);
    repeat split.
  cbn. symmetry. now apply delete_id.
Qed.

(** X7: [down] cannot drop the database named postgres: its
    administrative connection is to that very database, so on a server
    that has it the statement is rejected, the error is logged and the run
    ends by [sys.exit(1)] with the databases as they were. *)
Theorem down_of_postgres_fails (args : Args) (w : world) :
  dbname args = "postgres" ->
  accepts "postgres" w = true ->
  let evs := events (down args) w in
  fst (down args w) = SysExit 1 /\
  logged ERROR evs = [DownFailed (Error "ObjectInUse")] /\
  databases (snd (down args w)) = databases w.
Proof.
  intros Hname Ha evs. subst evs.
  pose proof (down_run args w) as Hrun. cbv zeta in Hrun.
  rewrite Ha, Hname in Hrun.
  change (server_reads "postgres") with (Some "postgres") in Hrun.
  cbv beta iota in Hrun.
  destruct (accepts_inv _ _ Ha) as [_ [admin Hadmin]].
  rewrite Hadmin in Hrun.
  rewrite bool_decide_eq_true_2 in Hrun by reflexivity.
  rewrite <- Hname in Hrun.
  rewrite (events_after _ _ _ _ _ _ Hrun), Hrun. repeat split.
Qed.

(** X8: [down] undoes [up].  On a server that lets the database be created
    and dropped, for a target other than postgres that did not exist and
    whose name the server reads as it is written, running [up] and then
    [down] ends with the databases exactly as they were before, whether the
    schema application of [up] succeeded or not. *)
Theorem up_then_down (args : Args) (w : world) :
  valid_name (dbname args) = true ->
  accepts "postgres" w = true ->
  create_fault w = None ->
  drop_fault w = None ->
  dbname args <> "postgres" ->
  databases w !! dbname args = None ->
  let w1 := snd (up args w) in
  is_Some (databases w1 !! dbname args) /\
  fst (down args w1) = Normal tt /\
  databases (snd (down args w1)) = databases w.
Proof.
  intros Hv Ha Hf Hd Hne Htarget w1.
  destruct (accepts_inv _ _ Ha) as [Hr Hadmin].
  assert (Hup : exists c evs ss r,
            up args w = (r, after evs (<[dbname args := c]> (databases w)) ss w)).
  { rewrite up_steps, up_ensure_database_run, Ha, (server_reads_valid _ Hv),
      Hf, Htarget.
    rewrite up_apply_schema_run.
    cbn [sql_file reachable databases sessions after].
    destruct (sql_file w); [|rewrite after_after; eauto].
    rewrite Hr, lookup_insert_eq.
    destruct (txn_effect _ _); rewrite after_after, ?insert_insert_eq; eauto. }
  destruct Hup as (c & evs & ss & r & Hup).
  assert (Hw1 : w1 = after evs (<[dbname args := c]> (databases w)) ss w)
    by (subst w1; now rewrite Hup).
  clearbody w1. subst w1.
  pose proof (down_run args (after evs (<[dbname args := c]> (databases w)) ss w))
    as Hrun.
  cbv zeta in Hrun.
  cbn [databases drop_fault sessions after] in *.
  assert (Ha1 : accepts "postgres"
                  (after evs (<[dbname args := c]> (databases w)) ss w) = true).
  { unfold accepts. cbn [reachable databases after]. rewrite Hr.
    apply bool_decide_eq_true_2. rewrite lookup_insert_ne by exact Hne.
    exact Hadmin. }
  rewrite Ha1, (server_reads_valid _ Hv), lookup_insert_eq,
    (bool_decide_eq_false_2 _ Hne), Hd in Hrun.
  rewrite Hrun. cbn [fst snd after databases].
  rewrite lookup_insert_eq. split; [eauto|]. split; [reflexivity|].
  rewrite delete_insert_eq. now apply delete_id.
Qed.

End DbExtras.

(** ** Further runs of manage_topics.py *)

Section TopicExtras.
Import ManageTopics.

Lemma omap_fmap_keep {A B C} (g : B -> option C) (f : A -> B) (h : A -> C)
    (xs : list A) :
  (forall x, g (f x) = Some (h x)) -> omap g (f <$> xs) = h <$> xs.
Proof.
  intros H. induction xs as [|x xs IH]; [reflexivity|].
  cbn. rewrite H. cbn. now rewrite IH.
Qed.

(** The events of a run of [create_topics]. *)
Lemma create_topics_events (names : list string) (np rf : Z) (w : world) :
  let existing := elements (topics w) in
  let wanted := missing existing names in
  let to_create :=
    (fun n => {| name := n; num_partitions := np; replication_factor := rf |})
      <$> wanted in
  events (create_topics names np rf) w
  = match listing_fault w with
    | Some _ => [ListTopics]
    | None =>
        (ListTopics
           :: ((fun n => Log WARNING (TopicAlreadyExists n))
                 <$> List.filter (fun n => bool_decide (n ∈ existing)) names))
        ++ match wanted with
           | [] => [Log INFO NoNewTopics]
           | _ =>
               CreateTopics to_create false
               :: (if authorized w
                   then (fun n => Log INFO (TopicCreated n)) <$> wanted
                   else [Log ERROR (CreateTopicsFailed
                                      (Error "TopicAuthorizationFailedError"))])
           end
    end.
Proof.
  intros existing wanted to_create.
  pose proof (create_topics_run names np rf w) as Hrun. cbv zeta in Hrun.
  fold existing wanted to_create in Hrun. subst to_create.
  destruct (listing_fault w) as [cls|].
  { now rewrite (events_add_events _ _ _ _ _ Hrun eq_refl). }
  destruct wanted as [|n l] eqn:Hw.
  - now rewrite (events_add_events _ _ _ _ _ Hrun (trace_add_events _ _)).
  - destruct (authorized w).
    + rewrite (events_add_events _ _ _ _ _ Hrun eq_refl).
      rewrite <- list_fmap_compose. reflexivity.
    + now rewrite (events_add_events _ _ _ _ _ Hrun eq_refl).
Qed.

(** The events of a run of [delete_topics]. *)
Lemma delete_topics_events (names : list string) (w : world) :
  events (delete_topics names) w
  = DeleteTopics names
    :: (if authorized w then
          if bool_decide (Exists (fun n => n ∉ topics w) names)
          then [Log WARNING (TopicsDoNotExist UnknownTopicOrPartitionError)]
          else (fun n => Log INFO (DeletionRequestSent n)) <$> names
        else [Log ERROR (DeleteTopicsFailed
                           (Error "TopicAuthorizationFailedError"))]).
Proof.
  pose proof (delete_topics_run names w) as Hrun.
  destruct (authorized w); [destruct (bool_decide _)|];
    now rewrite (events_add_events _ _ _ _ _ Hrun eq_refl).
Qed.

(** X11: what [create_topics] reports.  It never asks for a deletion, and
    no topic that existed is lost.  One exception can leave it: the error
    of the listing of the existing topics, which the function makes before
    its [try]; then the listing is all that happened, nothing is logged and
    no request is sent.  When the listing succeeds the function ends
    normally.  It logs one warning for every desired name that exists, in
    the order of the list; when nothing is missing it logs that there is
    nothing to create; when the request succeeds it logs one record for
    every topic created, in order; when the request fails it logs one error
    and no creation. *)
Theorem create_topics_report (names : list string) (np rf : Z) (w : world) :
  let existing := elements (topics w) in
  let present := List.filter (fun n => bool_decide (n ∈ existing)) names in
  let wanted := missing existing names in
  let run := create_topics names np rf w in
  let evs := events (create_topics names np rf) w in
  delete_requests evs = [] /\
  topics w ⊆ topics (snd run) /\
  match listing_fault w with
  | Some cls =>
      fst run = Raised (Error cls) /\
      evs = [ListTopics] /\
      topics (snd run) = topics w /\
      create_requests evs = [] /\
      logged WARNING evs = [] /\ logged INFO evs = [] /\ logged ERROR evs = []
  | None =>
      fst run = Normal tt /\
      logged WARNING evs = TopicAlreadyExists <$> present /\
      logged INFO evs
        = match wanted with
          | [] => [NoNewTopics]
          | _ => if authorized w then TopicCreated <$> wanted else []
          end /\
      logged ERROR evs
        = match wanted with
          | [] => []
          | _ => if authorized w then []
                 else [CreateTopicsFailed (Error "TopicAuthorizationFailedError")]
          end
  end.
Proof.
  intros existing present wanted run evs.
  pose proof (create_topics_events names np rf w) as Hev. cbv zeta in Hev.
  fold existing wanted evs in Hev. fold present in Hev.
  destruct (listing_fault w) as [cls|] eqn:Hfault.
  { pose proof (create_topics_stalled names np rf w cls Hfault) as Hrun.
    subst run. rewrite Hev, Hrun. repeat split; reflexivity. }
  destruct (create_topics_effect names np rf w Hfault) as (Hok & _ & Htopics & _).
  cbv zeta in Hok, Htopics. fold run in Hok, Htopics.
  split.
  { rewrite Hev. unfold delete_requests. rewrite omap_warned by reflexivity.
    destruct wanted; [reflexivity|].
    rewrite omap_skip by reflexivity.
    destruct (authorized w); [|reflexivity].
    now apply omap_logs. }
  split.
  { rewrite Htopics. destruct (authorized w); [|reflexivity].
    apply union_subseteq_l. }
  split; [exact Hok|].
  assert (Hwarn : forall lvl rest,
            logged lvl
              ((ListTopics :: ((fun n => Log WARNING (TopicAlreadyExists n))
                                 <$> present)) ++ rest)
            = (if bool_decide (WARNING = lvl) then TopicAlreadyExists <$> present
               else []) ++ logged lvl rest).
  { intros lvl rest. unfold logged.
    change ((ListTopics :: ?l) ++ rest) with (ListTopics :: (l ++ rest)).
    rewrite omap_skip by reflexivity. rewrite omap_app. f_equal.
    destruct (bool_decide (WARNING = lvl)) eqn:Hl.
    - apply omap_fmap_keep. intros x. now rewrite Hl.
    - apply omap_logs. intros x. now rewrite Hl. }
  rewrite Hev, !Hwarn. cbn [bool_decide decide_rel app].
  split; [|split].
  - rewrite <- (app_nil_r (TopicAlreadyExists <$> present)) at 2. f_equal.
    destruct wanted; [reflexivity|]. unfold logged.
    rewrite omap_skip by reflexivity.
    destruct (authorized w); [|reflexivity]. now apply omap_logs.
  - destruct wanted; [reflexivity|]. unfold logged.
    rewrite omap_skip by reflexivity.
    destruct (authorized w); [|reflexivity].
    now apply omap_fmap_keep.
  - destruct wanted; [reflexivity|]. unfold logged.
    rewrite omap_skip by reflexivity.
    destruct (authorized w); [|reflexivity]. now apply omap_logs.
Qed.


(** X12: what [delete_topics] does and reports.  It never raises; it sends
    one delete request, for the whole list, and no create request.  On a
    cluster that authorizes it, none of the named topics exists afterwards
    and no other topic is touched; if all of them existed it logs one
    record per name, and if any of them did not it logs a single warning
    and none of those records, although the ones that existed are deleted
    all the same.  On a cluster that rejects the request it logs one error
    and the topics are as they were. *)
Theorem delete_topics_report (names : list string) (w : world) :
  let run := delete_topics names w in
  let evs := events (delete_topics names) w in
  fst run = Normal tt /\
  delete_requests evs = [names] /\
  create_requests evs = [] /\
  if authorized w then
    topics (snd run) = topics w ∖ list_to_set names /\
    logged ERROR evs = [] /\
    if bool_decide (Forall (fun n => n ∈ topics w) names) then
      logged INFO evs = DeletionRequestSent <$> names /\
      logged WARNING evs = []
    else
      logged INFO evs = [] /\
      logged WARNING evs = [TopicsDoNotExist UnknownTopicOrPartitionError]
  else
    topics (snd run) = topics w /\
    logged ERROR evs
      = [DeleteTopicsFailed (Error "TopicAuthorizationFailedError")] /\
    logged INFO evs = [] /\
    logged WARNING evs = [].
Proof.
  intros run evs. subst run evs.
  pose proof (delete_topics_run names w) as Hrun.
  pose proof (delete_topics_events names w) as Hev.
  assert (Hall : bool_decide (Exists (fun n => n ∉ topics w) names)
                 = negb (bool_decide (Forall (fun n => n ∈ topics w) names))).
  { destruct (decide (Forall (fun n => n ∈ topics w) names)) as [Hf|Hf].
    - rewrite (bool_decide_eq_true_2 _ Hf). apply bool_decide_eq_false_2.
      rewrite Exists_exists. intros (n & Hn & Hnot).
      rewrite Forall_forall in Hf. now apply Hnot, Hf.
    - rewrite (bool_decide_eq_false_2 _ Hf). apply bool_decide_eq_true_2.
      apply not_Forall_Exists in Hf; [exact Hf|]. intros n. apply _. }
  rewrite Hall in Hrun, Hev. rewrite Hev, Hrun.
  destruct (authorized w);
    [destruct (bool_decide (Forall _ names)); cbn [negb]|];
    cbn [fst snd]; (split; [reflexivity|]).
  - unfold delete_requests, create_requests, logged.
    erewrite (omap_keep _ (DeleteTopics names)) by reflexivity.
    rewrite !(omap_skip _ (DeleteTopics names)) by reflexivity.
    repeat split;
      first [now apply omap_logs | now apply omap_fmap_keep
            | f_equal; now apply omap_logs].
  - repeat split.
  - repeat split.
Qed.

(** The part of the world the two functions leave alone. *)
Lemma create_topics_frame (names : list string) (np rf : Z) (w : world) :
  admin_client (snd (create_topics names np rf w)) = admin_client w /\
  trace (snd (create_topics names np rf w))
    = trace w ++ events (create_topics names np rf) w.
Proof.
  pose proof (create_topics_run names np rf w) as Hrun. cbv zeta in Hrun.
  unfold events.
  destruct (listing_fault w);
    [|destruct (missing _ _); [|destruct (authorized w)]]; rewrite Hrun;
    cbn [snd trace admin_client add_events set_topics];
    now rewrite drop_app_length.
Qed.

Lemma delete_topics_frame (names : list string) (w : world) :
  admin_client (snd (delete_topics names w)) = admin_client w /\
  trace (snd (delete_topics names w))
    = trace w ++ events (delete_topics names) w.
Proof.
  pose proof (delete_topics_run names w) as Hrun. unfold events.
  destruct (authorized w); [destruct (bool_decide _)|]; rewrite Hrun;
    cbn [snd trace admin_client add_events set_topics];
    now rewrite drop_app_length.
Qed.

Lemma observe_session {B} (g : event -> option B) (new : event)
    (inner : list event) :
  omap g (new :: inner ++ [CloseClient])
  = omap g [new] ++ omap g inner ++ omap g [CloseClient].
Proof.
  change (new :: inner ++ [CloseClient]) with ([new] ++ inner ++ [CloseClient]).
  now rewrite !omap_app.
Qed.

(** X13: the main module of manage_topics.py.  With a configuration
    variable missing or empty it raises ValueError before anything else
    happens: no client is created and nothing is logged.  Otherwise it
    never raises; it creates one client, for the comma-separated bootstrap
    servers; when the cluster answers it runs the chosen action, which for
    create sends no delete request and for any other choice no create
    request, and closes the client exactly once, as the last thing it
    does; when the cluster does not answer there is no client to close. *)
Theorem topics_main_lifecycle (env : Env) (act : string) (w : world) :
  let evs := events (main env act) w in
  if configured env then
    fst (main env act w) = Normal tt /\
    clients evs
      = [Text.split "," (default EmptyString (KAFKA_BOOTSTRAP_SERVERS env))] /\
    (if String.eqb act "create" then delete_requests evs = []
     else create_requests evs = []) /\
    if reachable w
    then client_closes evs = 1 /\ last evs = Some CloseClient
    else client_closes evs = 0
  else
    main env act w = (Raised ValueError, w).
Proof.
  intros evs. subst evs. unfold configured, events, main.
  destruct (forallb _ _); cbn [negb]; [|reflexivity].
  unfold try_finally, try_except, KafkaAdminClient, bind.
  rewrite emit_run. cbv beta iota.
  change (reachable (add_events _ (set_admin_client false w))) with (reachable w).
  set (servers := Text.split _ _).
  set (w0 := set_admin_client true
               (add_events
                  [NewAdminClient servers (default EmptyString (KAFKA_USER env))
                     (default EmptyString (KAFKA_PASSWORD env))]
                  (set_admin_client false w))).
  assert (Ht0 : trace w0 = trace w ++ [NewAdminClient servers
                   (default EmptyString (KAFKA_USER env))
                   (default EmptyString (KAFKA_PASSWORD env))]) by reflexivity.
  destruct (reachable w).
  - destruct (String.eqb act "create").
    + destruct (create_topics_frame topics_of_main 1 1 w0) as [Hadm Htr].
      destruct (create_topics_outcome topics_of_main 1 1 w0) as (Hok & _).
      cbv zeta in Hok.
      pose proof (create_topics_events topics_of_main 1 1 w0) as Hev.
      cbv zeta in Hev.
      set (inner := events (create_topics topics_of_main 1 1) w0) in *.
      change (admin_client w0) with true in Hadm.
      set (auth0 := authorized w0) in *. set (missing0 := missing _ _) in *.
      set (fault0 := listing_fault w0) in *.
      clearbody inner auth0 missing0 fault0. subst w0.
      destruct (create_topics topics_of_main 1 1 _) as [r w'].
      cbn [fst snd] in *. subst r.
      destruct fault0 as [cls|]; cbv beta iota.
      * rewrite log_run. cbn [fst snd].
        change (admin_client (add_events _ w')) with (admin_client w').
        rewrite Hadm. cbv iota.
        unfold client_close. rewrite emit_run. cbn [fst snd].
        rewrite add_events_app, trace_add_events, Htr, Ht0, Hev,
          <- !app_assoc, drop_app_length.
        repeat split.
      * rewrite Hadm. cbv iota.
        unfold client_close. rewrite emit_run. cbn [fst snd].
        rewrite trace_add_events, Htr, Ht0, <- !app_assoc, drop_app_length.
        split; [reflexivity|].
        assert (Hblind : forall (B : Type) (g : event -> option B),
                  (forall lvl msg, g (Log lvl msg) = None) ->
                  g ListTopics = None ->
                  (forall t v, g (CreateTopics t v) = None) ->
                  omap g inner = []).
        { intros B g Hlog Hlist Hcreate. rewrite Hev.
          rewrite omap_warned by auto.
          destruct missing0; [now rewrite omap_skip by auto|].
          rewrite omap_skip by auto.
          destruct auth0; [|now rewrite omap_skip by auto].
          now apply omap_logs. }
        cbn [app]. unfold clients, client_closes, create_requests, delete_requests.
        rewrite !observe_session, !Hblind by reflexivity.
        repeat split.
        change (?x :: inner ++ [CloseClient]) with ((x :: inner) ++ [CloseClient]).
        apply last_snoc.
    + destruct (delete_topics_frame topics_of_main w0) as [Hadm Htr].
      assert (Hok : fst (delete_topics topics_of_main w0) = Normal tt).
      { rewrite delete_topics_run.
        destruct (authorized w0); [destruct (bool_decide _)|]; reflexivity. }
      pose proof (delete_topics_events topics_of_main w0) as Hev.
      set (inner := events (delete_topics topics_of_main) w0) in *.
      change (admin_client w0) with true in Hadm.
      set (auth0 := authorized w0) in *. set (gone0 := bool_decide _) in *.
      clearbody inner auth0 gone0. subst w0.
      destruct (delete_topics topics_of_main _) as [r w'].
      cbn [fst snd] in *. subst r. cbv beta iota.
      rewrite Hadm. cbv iota.
      unfold client_close. rewrite emit_run. cbn [fst snd].
      rewrite trace_add_events, Htr, Ht0, <- !app_assoc, drop_app_length.
      split; [reflexivity|].
      assert (Hblind : forall (B : Type) (g : event -> option B),
                (forall lvl msg, g (Log lvl msg) = None) ->
                (forall t, g (DeleteTopics t) = None) ->
                omap g inner = []).
      { intros B g Hlog Hdelete. rewrite Hev.
        rewrite omap_skip by auto.
        destruct auth0; [destruct gone0|]; try now rewrite omap_skip by auto.
        now apply omap_logs. }
      cbn [app]. unfold clients, client_closes, create_requests, delete_requests.
      rewrite !observe_session, !Hblind by reflexivity.
      repeat split.
      change (?x :: inner ++ [CloseClient]) with ((x :: inner) ++ [CloseClient]).
      apply last_snoc.
  - rewrite log_run. cbn [fst snd admin_client add_events set_admin_client].
    rewrite add_events_app, trace_add_events.
    change (trace (set_admin_client false w)) with (trace w).
    rewrite drop_app_length.
    destruct (String.eqb act "create"); repeat split.
Qed.

Lemma delete_topics_topics (names : list string) (w : world) :
  authorized w = true ->
  topics (snd (delete_topics names w)) = topics w ∖ list_to_set names.
Proof.
  intros Hauth. rewrite delete_topics_run, Hauth.
  now destruct (bool_decide _).
Qed.

(** X14: create and delete undo each other on the topics they name.  On a
    cluster that authorizes the requests, deleting a list of topics after
    creating it leaves exactly the topics that existed before and are not
    in the list; creating it after deleting it leaves the topics that
    existed before together with those of the list when the listing of the
    existing topics succeeds, and what the deletion left when it fails. *)
Theorem create_and_delete_compose (names : list string) (np rf : Z) (w : world) :
  authorized w = true ->
  topics (snd (delete_topics names (snd (create_topics names np rf w))))
    = topics w ∖ list_to_set names /\
  topics (snd (create_topics names np rf (snd (delete_topics names w))))
    = match listing_fault w with
      | None => topics w ∪ list_to_set names
      | Some _ => topics w ∖ list_to_set names
      end.
Proof.
  intros Hauth. split.
  - destruct (listing_fault w) as [cls|] eqn:Hfault.
    + rewrite (create_topics_stalled names np rf w cls Hfault). cbn [snd].
      now rewrite delete_topics_topics.
    + destruct (create_topics_effect names np rf w Hfault)
        as (_ & Hauth1 & Htopics1 & _).
      cbv zeta in Hauth1, Htopics1. rewrite Hauth in Hauth1, Htopics1.
      rewrite (delete_topics_topics _ _ Hauth1), Htopics1. apply set_eq. intros n.
      rewrite !elem_of_difference, elem_of_union. tauto.
  - pose proof (delete_topics_topics names w Hauth) as Hdel.
    assert (Hw1 : authorized (snd (delete_topics names w)) = true /\
                  listing_fault (snd (delete_topics names w)) = listing_fault w).
    { pose proof (delete_topics_run names w) as Hrun. rewrite Hauth in Hrun.
      rewrite Hrun. now destruct (bool_decide _). }
    destruct Hw1 as [Hauth1 Hfault1].
    destruct (listing_fault w) as [cls|] eqn:Hfault.
    + now rewrite (create_topics_stalled names np rf _ cls Hfault1).
    + destruct (create_topics_effect names np rf (snd (delete_topics names w))
                  Hfault1) as (_ & _ & Htopics & _).
      cbv zeta in Htopics. rewrite Hauth1 in Htopics.
      rewrite Htopics, Hdel. apply set_eq. intros n.
      rewrite !elem_of_union, elem_of_difference.
      destruct (decide (n ∈ (list_to_set names : gset string))); tauto.
Qed.

End TopicExtras.

(** ** The further properties on the sample inputs *)

Section MoreInstances.
Import ManageDb.

#[local] Existing Instance Sample.journal.

(** [clean_sql_keeps_plain_script] on the sample script without
    meta-commands. *)
Lemma clean_sql_keeps_plain_script_witness :
  Forall (fun line => is_meta_command line = false)
    (Text.split Text.LF Sample.plain_script) /\
  clean_sql Sample.plain_script = Sample.plain_script.
Proof.
  assert (Hplain : Forall (fun line => is_meta_command line = false)
                     (Text.split Text.LF Sample.plain_script))
    by (vm_compute; repeat constructor).
  split; [exact Hplain|].
  exact (clean_sql_keeps_plain_script Sample.plain_script Hplain).
Defined.

(** [up_without_sql_file] on the sample server without the SQL file. *)
Lemma up_without_sql_file_witness :
  let w := Sample.server None in
  let evs := events (up Sample.args) w in
  (valid_name (dbname Sample.args) = true /\
   accepts "postgres" w = true /\ create_fault w = None /\ sql_file w = None) /\
  fst (up Sample.args w) = SysExit 1 /\
  logged ERROR evs = [SqlFileNotFound] /\
  connected evs = ["postgres"].
Proof.
  split; [repeat split|].
  pose proof (up_without_sql_file Sample.args (Sample.server None)
                eq_refl eq_refl eq_refl eq_refl) as (Hexit & Hlog & Hconn & _).
  exact (conj Hexit (conj Hlog Hconn)).
Defined.

(** [down_of_postgres_fails] on the sample server. *)
Lemma down_of_postgres_fails_witness :
  let w := Sample.server_with_target in
  (dbname Sample.args_postgres = "postgres" /\ accepts "postgres" w = true) /\
  fst (down Sample.args_postgres w) = SysExit 1 /\
  databases (snd (down Sample.args_postgres w)) = databases w.
Proof.
  split; [repeat split|].
  pose proof (down_of_postgres_fails Sample.args_postgres
                Sample.server_with_target eq_refl eq_refl) as (Hexit & _ & Hdbs).
  exact (conj Hexit Hdbs).
Defined.

(** [up_then_down] on the sample server with the failing script. *)
Lemma up_then_down_witness :
  let w := Sample.server (Some Sample.failing_script) in
  let w1 := snd (up Sample.args w) in
  (accepts "postgres" w = true /\ create_fault w = None /\
   drop_fault w = None /\ dbname Sample.args <> "postgres" /\
   databases w !! dbname Sample.args = None /\
   valid_name (dbname Sample.args) = true) /\
  fst (down Sample.args w1) = Normal tt /\
  databases (snd (down Sample.args w1)) = databases w.
Proof.
  assert (Hne : dbname Sample.args <> "postgres") by discriminate.
  split; [repeat split; exact Hne|].
  pose proof (up_then_down Sample.args (Sample.server (Some Sample.failing_script))
                eq_refl eq_refl eq_refl eq_refl Hne eq_refl) as (_ & Hok & Hdbs).
  exact (conj Hok Hdbs).
Defined.

(** [create_and_delete_compose] on the sample cluster. *)
Lemma create_and_delete_compose_witness :
  let names := ["orders"; "inventory"] in
  let w := Sample.cluster in
  ManageTopics.authorized w = true /\
  ManageTopics.topics
    (snd (ManageTopics.delete_topics names
            (snd (ManageTopics.create_topics names 1 1 w))))
    = ManageTopics.topics w ∖ list_to_set names.
Proof.
  split; [reflexivity|].
  exact (proj1 (create_and_delete_compose ["orders"; "inventory"] 1 1
                  Sample.cluster eq_refl)).
Defined.

End MoreInstances.
